(** * Itqan CMS front-end: session reconciler, forms, dashboard, pagination

    A shallow embedding of the logic of the React components of the
    repository, and the properties of the specification stated over it.

    Conventions of the embedding:
    - a JavaScript [number] that holds a page index or an item count is a [Z];
    - a JavaScript object used as a dictionary ([localStorage], the
      [Record<string, string>] of field errors, a form's data) is a
      [gmap string _];
    - React state is threaded explicitly: a handler is a function from the
      component state before the event to the state after it;
    - the answer of the outside world to an asynchronous call (a fetch, a
      token request) is an argument of the handler that awaits it. *)

From Stdlib Require Import ZArith List String Ascii Bool Lia Sorted.
From stdpp Require Import gmap strings list fin_maps.

Local Open Scope string_scope.
Local Open Scope Z_scope.
Local Open Scope list_scope.

(** ** pagination.tsx *)

Module Pagination.

Record PaginationInfo := {
  page : Z;
  per_page : Z;
  total : Z;
  pages : Z;
  has_next : bool;
  has_prev : bool
}.

(** An element of [(number | 'ellipsis')[]]. *)
Inductive PageEntry :=
| PageNum (n : Z)
| ellipsis.

(** [for (let i = lo; i <= hi; i++) visiblePages.push(i)], unrolled on a
    fuel; the loop leaves by its test. *)
Fixpoint push_loop (fuel : nat) (i hi : Z) (visiblePages : list PageEntry)
  : list PageEntry :=
  match fuel with
  | O => visiblePages
  | S fuel' =>
      if i <=? hi
      then push_loop fuel' (i + 1) hi (visiblePages ++ [PageNum i])
      else visiblePages
  end.

(** The loop runs [hi - lo + 1] times when [lo <= hi], and not at all
    otherwise; one more unit of fuel lets the test fail. *)
Definition for_push (lo hi : Z) (visiblePages : list PageEntry) : list PageEntry :=
  push_loop (S (Z.to_nat (hi - lo + 1))) lo hi visiblePages.

Definition maxVisiblePages : Z := 7.

Definition getVisiblePages (p : PaginationInfo) : list PageEntry :=
  let visiblePages := [] in
  if pages p <=? maxVisiblePages then
    for_push 1 (pages p) visiblePages
  else
    let visiblePages := visiblePages ++ [PageNum 1] in
    if page p <=? 4 then
      let visiblePages := for_push 2 5 visiblePages in
      let visiblePages := visiblePages ++ [ellipsis] in
      visiblePages ++ [PageNum (pages p)]
    else if page p >=? pages p - 3 then
      let visiblePages := visiblePages ++ [ellipsis] in
      for_push (pages p - 4) (pages p) visiblePages
    else
      let visiblePages := visiblePages ++ [ellipsis] in
      let visiblePages := for_push (page p - 1) (page p + 1) visiblePages in
      let visiblePages := visiblePages ++ [ellipsis] in
      visiblePages ++ [PageNum (pages p)].

(** What the component puts on the screen: the results summary, the two
    arrow buttons with the page their click asks for, and the page buttons. *)
Record PaginationView := {
  shown_from : Z;
  shown_to : Z;
  shown_total : Z;
  previous_disabled : bool;
  previous_target : Z;
  page_buttons : list PageEntry;
  next_disabled : bool;
  next_target : Z
}.

(** The component; [None] is the [return null]. *)
Definition Pagination (p : PaginationInfo) : option PaginationView :=
  let startItem := (page p - 1) * per_page p + 1 in
  let endItem := Z.min (page p * per_page p) (total p) in
  let visiblePages := getVisiblePages p in
  if pages p <=? 1 then None
  else Some {|
    shown_from := startItem;
    shown_to := endItem;
    shown_total := total p;
    previous_disabled := negb (has_prev p);
    previous_target := page p - 1;
    page_buttons := visiblePages;
    next_disabled := negb (has_next p);
    next_target := page p + 1
  |}.

(** The ascending list [1; 2; ...; n] of page buttons. *)
Definition pages_upto (n : Z) : list PageEntry :=
  map (fun k => PageNum (Z.of_nat k)) (seq 1 (Z.to_nat n)).

End Pagination.

(** ** filters-sidebar.tsx *)

Module FiltersSidebar.

Record FiltersState := {
  categories : list string;
  formats : list string;
  languages : list string;
  licenses : list string
}.

(** [keyof FiltersState] *)
Inductive FilterKey := Categories | Formats | Languages | Licenses.

(** [filters[filterType]] *)
Definition facet (filters : FiltersState) (filterType : FilterKey) : list string :=
  match filterType with
  | Categories => categories filters
  | Formats => formats filters
  | Languages => languages filters
  | Licenses => licenses filters
  end.

(** [{ ...filters, [filterType]: newValues }] *)
Definition with_facet (filters : FiltersState) (filterType : FilterKey)
    (newValues : list string) : FiltersState :=
  match filterType with
  | Categories =>
      {| categories := newValues; formats := formats filters;
         languages := languages filters; licenses := licenses filters |}
  | Formats =>
      {| categories := categories filters; formats := newValues;
         languages := languages filters; licenses := licenses filters |}
  | Languages =>
      {| categories := categories filters; formats := formats filters;
         languages := newValues; licenses := licenses filters |}
  | Licenses =>
      {| categories := categories filters; formats := formats filters;
         languages := languages filters; licenses := newValues |}
  end.

Section Handlers.
(** The component owns no filter state: its handlers end in one call of
    the [onFiltersChange] property, whose effect on the parent is [R]. *)
Context {R : Type}.
Variable onFiltersChange : FiltersState -> R.

Definition handleFilterChange (filters : FiltersState)
    (filterType : FilterKey) (value : string) (checked : bool) : R :=
  let currentValues := facet filters filterType in
  let newValues :=
    if checked then currentValues ++ [value]
    else List.filter (fun v => negb (String.eqb v value)) currentValues in
  onFiltersChange (with_facet filters filterType newValues).

Definition clearAllFilters : R :=
  onFiltersChange
    {| categories := []; formats := []; languages := []; licenses := [] |}.
End Handlers.

(** [Object.values(filters).some(arr => arr.length > 0)] *)
Definition hasActiveFilters (filters : FiltersState) : bool :=
  existsb (fun arr => (0 <? length arr)%nat)
    [categories filters; formats filters; languages filters; licenses filters].

(** [filters[section.key].includes(option.value)]: the checkbox is drawn checked. *)
Definition isChecked (filters : FiltersState) (filterType : FilterKey)
    (value : string) : bool :=
  existsb (String.eqb value) (facet filters filterType).

End FiltersSidebar.

(** ** search-bar.tsx *)

Module SearchBar.

Section Handlers.
(** [P] is the state of the parent, changed by the two callbacks; the
    component itself holds [localValue]. *)
Context {P : Type}.
Variable onChange : string -> P -> P.
Variable onSearch : string -> P -> P.

Definition handleInputChange (newValue : string) (st : string * P) : string * P :=
  let '(_, parent) := st in
  (newValue, onChange newValue parent).

Definition handleSubmit (st : string * P) : string * P :=
  let '(localValue, parent) := st in
  (localValue, onSearch localValue parent).

Definition handleClear (st : string * P) : string * P :=
  let '(_, parent) := st in
  ("", onSearch "" (onChange "" parent)).

Definition handleKeyDown (key : string) (st : string * P) : string * P :=
  let '(localValue, parent) := st in
  if String.eqb key "Enter" then (localValue, onSearch localValue parent)
  else st.
End Handlers.

(** [useEffect(() => setLocalValue(value), [value])]: runs when the [value]
    property differs from the one of the previous render. *)
Definition syncLocalValue (previous value localValue : string) : string :=
  if String.eqb previous value then localValue else value.

End SearchBar.

(** ** dashboard-content.tsx *)

Module Dashboard.
Import Pagination FiltersSidebar.

(** The state of [DashboardContent] that its handlers read or write. The
    asset list and the loading flag only receive the mock data. *)
Record DashboardState := {
  searchQuery : string;
  filters : FiltersState;
  pagination : PaginationInfo;
  showMobileFilters : bool
}.

Definition initialState : DashboardState := {|
  searchQuery := "";
  filters := {| categories := []; formats := []; languages := []; licenses := [] |};
  pagination := {| page := 1; per_page := 20; total := 156; pages := 8;
                   has_next := true; has_prev := false |};
  showMobileFilters := false
|}.

Definition setSearchQuery (query : string) (s : DashboardState) : DashboardState :=
  {| searchQuery := query; filters := filters s;
     pagination := pagination s; showMobileFilters := showMobileFilters s |}.

Definition setFilters (newFilters : FiltersState) (s : DashboardState) : DashboardState :=
  {| searchQuery := searchQuery s; filters := newFilters;
     pagination := pagination s; showMobileFilters := showMobileFilters s |}.

(** [setPagination(prev => f(prev))] *)
Definition setPagination (f : PaginationInfo -> PaginationInfo) (s : DashboardState)
  : DashboardState :=
  {| searchQuery := searchQuery s; filters := filters s;
     pagination := f (pagination s); showMobileFilters := showMobileFilters s |}.

(** [{ ...prev, page }] *)
Definition with_page (n : Z) (prev : PaginationInfo) : PaginationInfo :=
  {| page := n; per_page := per_page prev; total := total prev;
     pages := pages prev; has_next := has_next prev; has_prev := has_prev prev |}.

Definition handleSearch (query : string) (s : DashboardState) : DashboardState :=
  setPagination (with_page 1) (setSearchQuery query s).

Definition handleFiltersChange (newFilters : FiltersState) (s : DashboardState)
  : DashboardState :=
  setPagination (with_page 1) (setFilters newFilters s).

Definition handlePageChange (n : Z) (s : DashboardState) : DashboardState :=
  setPagination (with_page n) s.

(** The events of the dashboard's controls. *)
Inductive Event :=
| SearchTyped (newValue : string)
| SearchSubmitted
| SearchCleared
| SearchKeyDown (key : string)
| FilterToggled (filterType : FilterKey) (value : string) (checked : bool)
| FiltersCleared
| PageClicked (pageNum : Z)
| PreviousClicked
| NextClicked.

(** The dashboard together with the search bar's own [localValue]. *)
Record Screen := {
  dashboard : DashboardState;
  localValue : string
}.

Definition initialScreen : Screen :=
  {| dashboard := initialState; localValue := "" |}.

(** The search bar as wired in [DashboardContent]:
    [onChange={setSearchQuery} onSearch={handleSearch}]. *)
Definition searchBar (h : string * DashboardState -> string * DashboardState)
    (sc : Screen) : Screen :=
  let '(lv, d) := h (localValue sc, dashboard sc) in
  {| dashboard := d;
     localValue := SearchBar.syncLocalValue (searchQuery (dashboard sc)) (searchQuery d) lv |}.

Definition onDashboard (f : DashboardState -> DashboardState) (sc : Screen) : Screen :=
  {| dashboard := f (dashboard sc);
     localValue := SearchBar.syncLocalValue (searchQuery (dashboard sc))
                     (searchQuery (f (dashboard sc))) (localValue sc) |}.

(** One event on the rendered screen. A control that is not drawn, or is
    drawn disabled, delivers no event. *)
Definition dispatch (ev : Event) (sc : Screen) : Screen :=
  let d := dashboard sc in
  match ev with
  | SearchTyped newValue =>
      searchBar (SearchBar.handleInputChange setSearchQuery newValue) sc
  | SearchSubmitted =>
      searchBar (SearchBar.handleSubmit handleSearch) sc
  | SearchCleared =>
      if String.eqb (localValue sc) "" then sc
      else searchBar (SearchBar.handleClear setSearchQuery handleSearch) sc
  | SearchKeyDown key =>
      searchBar (SearchBar.handleKeyDown handleSearch key) sc
  | FilterToggled filterType value checked =>
      onDashboard
        (handleFilterChange handleFiltersChange (filters d) filterType value checked) sc
  | FiltersCleared =>
      if hasActiveFilters (filters d)
      then onDashboard (clearAllFilters handleFiltersChange) sc
      else sc
  | PageClicked pageNum =>
      match Pagination.Pagination (pagination d) with
      | Some v =>
          if existsb (fun e => match e with
                               | PageNum n => n =? pageNum
                               | ellipsis => false
                               end) (page_buttons v)
          then onDashboard (handlePageChange pageNum) sc else sc
      | None => sc
      end
  | PreviousClicked =>
      match Pagination.Pagination (pagination d) with
      | Some v =>
          if previous_disabled v then sc
          else onDashboard (handlePageChange (previous_target v)) sc
      | None => sc
      end
  | NextClicked =>
      match Pagination.Pagination (pagination d) with
      | Some v =>
          if next_disabled v then sc
          else onDashboard (handlePageChange (next_target v)) sc
      | None => sc
      end
  end.

(** The events that change only the page: the page buttons and the arrows. *)
Definition isPageNavigation (ev : Event) : bool :=
  match ev with
  | PageClicked _ | PreviousClicked | NextClicked => true
  | _ => false
  end.

(** The events through which the search bar calls [onSearch]: the form's
    submit, the Enter key, and the clear button when it is drawn. *)
Definition callsOnSearch (ev : Event) (sc : Screen) : bool :=
  match ev with
  | SearchSubmitted => true
  | SearchKeyDown key => String.eqb key "Enter"
  | SearchCleared => negb (String.eqb (localValue sc) "")
  | _ => false
  end.

End Dashboard.

(** ** auth0-integrated-provider.tsx *)

Module Auth.

Record User := {
  id : string;
  email : string;
  firstName : string;
  lastName : string;
  provider : string;
  profileCompleted : bool;
  (** [None] is the [undefined] that [auth0User?.sub!] yields without a
      provider user. *)
  auth0Id : option string
}.

(** The claims of the identity provider's user that the reconciler reads;
    an absent claim is [None]. *)
Record Auth0User := {
  sub : string;
  email_claim : option string;
  given_name : option string;
  family_name : option string
}.

(** What [useAuth0()] reports at a render. *)
Record Auth0State := {
  auth0User : option Auth0User;
  auth0IsAuthenticated : bool;
  auth0IsLoading : bool
}.

(** A value of [localStorage]. [JsonOf u] is the text [JSON.stringify(u)];
    [Text s] is any other text. *)
Inductive StoredItem :=
| JsonOf (u : User)
| Text (s : string).

(** [JSON.parse] of a stored text, as far as a [User] can hold the result;
    [None] is a throw. Only [persistUserState] writes the User key, and what
    it writes is [JsonOf u]. Another text that is no JSON at all does make
    [JSON.parse] throw. A text that is the JSON of something else ('{}',
    'null', '0') parses in the browser to a value that is no [User]; such a
    storage lies outside this embedding, and the properties of the mount
    effect are stated for [JsonOf u], for an absent or empty entry, and for
    texts that cannot be JSON ([cannotBeJSON] below). *)
Definition JSON_parse (item : StoredItem) : option User :=
  match item with
  | JsonOf u => Some u
  | Text _ => None
  end.

(** Truthiness of a stored string: every string but the empty one. *)
Definition truthy (item : StoredItem) : bool :=
  match item with
  | JsonOf _ => true
  | Text s => negb (String.eqb s "")
  end.

(** [item === '1'], for the result of [getItem]. *)
Definition is_one (item : option StoredItem) : bool :=
  match item with
  | Some (Text s) => String.eqb s "1"
  | _ => false
  end.

(** [x || undefined] on an optional string: the empty string is falsy. *)
Definition nonempty (x : option string) : option string :=
  match x with
  | Some s => if String.eqb s "" then None else Some s
  | None => None
  end.

(** [x || d] on an optional string. *)
Definition or_default (x : option string) (d : string) : string :=
  match nonempty x with
  | Some s => s
  | None => d
  end.

(** A thrown value. *)
Inductive JsError := ErrorWith (message : string).

(** How an awaited promise settles for its caller. *)
Inductive Settled :=
| Resolved
| Rejected (error : JsError).

(** What the [/userinfo] fallback meets: the token request rejects, the
    fetch rejects, or a response arrives whose [json()] either rejects
    ([None]) or yields an object with an optional [email]. *)
Inductive UserinfoOutcome :=
| UiTokenRejected
| UiFetchRejected
| UiResponded (ok : bool) (body : option (option string)).

(** The value left in [resolvedEmail] by the [try] block of the fallback. *)
Definition userinfoEmail (ui : UserinfoOutcome) : option string :=
  match ui with
  | UiResponded true (Some uiEmail) => uiEmail
  | _ => None
  end.

(** The user record in a successful answer of the backend. *)
Record BackendUser := {
  backend_id : string;
  backend_email : string;
  first_name : string;
  last_name : string
}.

(** What the profile submission meets: the token request or the fetch
    rejects, the response is ok and its [json()] rejects or yields the
    user record, or the response is not ok and [errorData.error] is a text
    or absent (also when [json()] rejects, by [.catch(() => ({}))]). *)
Inductive SubmitOutcome :=
| SubmitTokenRejected (e : JsError)
| SubmitFetchRejected (e : JsError)
| SubmitOk (body : JsError + BackendUser)
| SubmitNotOk (errorField : option string).

(** The calls the provider makes on the router and on the identity bridge. *)
Inductive Effect :=
| RouterReplace (href : string)
| Auth0Logout (returnTo : string).

(** The React state of the provider, [localStorage], and the calls made so far. *)
Record State := {
  user : option User;
  isLoading : bool;
  requiresProfileCompletion : bool;
  localStorage : gmap string StoredItem;
  effects : list Effect
}.

Definition setUser (u : option User) (s : State) : State :=
  {| user := u; isLoading := isLoading s;
     requiresProfileCompletion := requiresProfileCompletion s;
     localStorage := localStorage s; effects := effects s |}.

Definition setIsLoading (b : bool) (s : State) : State :=
  {| user := user s; isLoading := b;
     requiresProfileCompletion := requiresProfileCompletion s;
     localStorage := localStorage s; effects := effects s |}.

Definition setRequiresProfileCompletion (b : bool) (s : State) : State :=
  {| user := user s; isLoading := isLoading s;
     requiresProfileCompletion := b;
     localStorage := localStorage s; effects := effects s |}.

Definition onStorage (f : gmap string StoredItem -> gmap string StoredItem)
    (s : State) : State :=
  {| user := user s; isLoading := isLoading s;
     requiresProfileCompletion := requiresProfileCompletion s;
     localStorage := f (localStorage s); effects := effects s |}.

Definition getItem (key : string) (s : State) : option StoredItem :=
  localStorage s !! key.

Definition setItem (key : string) (value : StoredItem) : State -> State :=
  onStorage (insert key value).

Definition removeItem (key : string) : State -> State :=
  onStorage (delete key).

Definition emit (e : Effect) (s : State) : State :=
  {| user := user s; isLoading := isLoading s;
     requiresProfileCompletion := requiresProfileCompletion s;
     localStorage := localStorage s; effects := effects s ++ [e] |}.

(** The state of the first render over a given [localStorage]. *)
Definition initialState (storage : gmap string StoredItem) : State :=
  {| user := None; isLoading := true; requiresProfileCompletion := false;
     localStorage := storage; effects := [] |}.

(** Truthiness of [user]. *)
Definition hasUser (s : State) : bool :=
  match user s with
  | Some _ => true
  | None => false
  end.

(** [pathname.includes(part)] *)
Fixpoint includes (pathname part : string) : bool :=
  if String.prefix part pathname then true
  else match pathname with
       | EmptyString => false
       | String _ rest => includes rest part
       end.

(** The mount effect: load the user from [localStorage]. A throw of
    [JSON.parse] is caught and leaves the state as it is. *)
Definition loadFromStorage (s : State) : State :=
  let storedUser := getItem "itqan_user" s in
  let profileCompleted_ := getItem "itqan_profile_completed" s in
  match storedUser with
  | Some item =>
      if truthy item then
        match JSON_parse item with
        | Some parsedUser =>
            let s := setUser (Some parsedUser) s in
            setRequiresProfileCompletion
              (negb (is_one profileCompleted_) && negb (profileCompleted parsedUser)) s
        | None => s
        end
      else s
  | None => s
  end.

Definition persistUserState (userData : option User) (s : State) : State :=
  let s := setUser userData s in
  match userData with
  | Some u => setItem "itqan_user" (JsonOf u) s
  | None => removeItem "itqan_profile_completed" (removeItem "itqan_user" s)
  end.

(** [{ ...userData, profileCompleted: true }], the assignment in [syncUser]. *)
Definition markCompleted (u : User) : User :=
  {| id := id u; email := email u; firstName := firstName u;
     lastName := lastName u; provider := provider u;
     profileCompleted := true; auth0Id := auth0Id u |}.

(** The sync effect, from its start to the [finally]. The fallback lookup
    is made only when the primary claim is absent; [ui] is what it meets, and
    its own [catch] leaves [resolvedEmail] undefined. [localStorage] accepts
    every read and write here, so nothing throws into the outer [catch]. *)
Definition syncUser (a : Auth0State) (ui : UserinfoOutcome) (s : State) : State :=
  if auth0IsLoading a then s
  else
    let s := setIsLoading true s in
    let s :=
      match auth0IsAuthenticated a, auth0User a with
      | true, Some au =>
          let resolvedEmail :=
            match nonempty (email_claim au) with
            | Some e => Some e
            | None => userinfoEmail ui
            end in
          let userData :=
            {| id := sub au;
               email := or_default resolvedEmail "";
               firstName := or_default (given_name au) "";
               lastName := or_default (family_name au) "";
               provider := "auth0";
               profileCompleted := false;
               auth0Id := Some (sub au) |} in
          let persisted := getItem "itqan_profile_completed" s in
          let userData := if is_one persisted then markCompleted userData else userData in
          let s := persistUserState (Some userData) s in
          setRequiresProfileCompletion (negb (profileCompleted userData)) s
      | _, _ =>
          let s := persistUserState None s in
          setRequiresProfileCompletion false s
      end in
    setIsLoading false s.

Section Provider.
Variable locale : string.
(** [env.NEXT_PUBLIC_APP_URL] *)
Variable NEXT_PUBLIC_APP_URL : string.

(** The route protection effect: the target of its [router.replace], if any. *)
Definition guardRedirect (a : Auth0State) (pathname : string) (s : State)
  : option string :=
  if isLoading s || auth0IsLoading a then None
  else
    let isAuthRoute := includes pathname "/auth/" in
    let isHomePage :=
      String.eqb pathname ("/" +:+ locale) || String.eqb pathname ("/" +:+ locale +:+ "/") in
    let isCallbackRoute := includes pathname "/auth/callback" in
    if isCallbackRoute then None
    else
      let authenticated :=
        if auth0IsAuthenticated a && hasUser s then
          if requiresProfileCompletion s
             && negb (includes pathname "/auth/complete-profile")
          then Some ("/" +:+ locale +:+ "/auth/complete-profile")
          else if negb (requiresProfileCompletion s) && isAuthRoute
                  && negb isCallbackRoute
          then Some ("/" +:+ locale +:+ "/dashboard")
          else None
        else None in
      match authenticated with
      | Some href => Some href
      | None =>
          if negb (auth0IsAuthenticated a) && negb (auth0IsLoading a)
             && negb isAuthRoute && negb isHomePage
          then Some ("/" +:+ locale +:+ "/auth/login")
          else None
      end.

Definition routeProtection (a : Auth0State) (pathname : string) (s : State) : State :=
  match guardRedirect a pathname s with
  | Some href => emit (RouterReplace href) s
  | None => s
  end.

Definition logout (s : State) : State :=
  let s := emit (Auth0Logout (NEXT_PUBLIC_APP_URL +:+ "/" +:+ locale)) s in
  let s := setUser None s in
  setRequiresProfileCompletion false s.

Definition updateUser (userData : User) (s : State) : State :=
  let s := setUser (Some userData) s in
  setRequiresProfileCompletion (negb (profileCompleted userData)) s.

(** The state when the promise settles, and how it settles. *)
Definition completeProfile (a : Auth0State) (out : SubmitOutcome) (s : State)
  : State * Settled :=
  match out with
  | SubmitTokenRejected error => (s, Rejected error)
  | SubmitFetchRejected error => (s, Rejected error)
  | SubmitOk (inl error) => (s, Rejected error)
  | SubmitOk (inr backendUser) =>
      let userData :=
        {| id := backend_id backendUser;
           email := backend_email backendUser;
           firstName := first_name backendUser;
           lastName := last_name backendUser;
           provider := "auth0";
           profileCompleted := true;
           auth0Id := sub <$> auth0User a |} in
      let s := persistUserState (Some userData) s in
      let s := setRequiresProfileCompletion false s in
      let s := setItem "itqan_profile_completed" (Text "1") s in
      let s := emit (RouterReplace ("/" +:+ locale +:+ "/dashboard")) s in
      (s, Resolved)
  | SubmitNotOk errorField =>
      (s, Rejected (ErrorWith (or_default errorField "Failed to complete profile")))
  end.
End Provider.

(** The fallback met a network error or a response that is not ok. *)
Definition lookupFailed (ui : UserinfoOutcome) : bool :=
  match ui with
  | UiTokenRejected | UiFetchRejected => true
  | UiResponded ok _ => negb ok
  end.

(** The persisted completion flag is set. *)
Definition persistedCompleted (s : State) : bool :=
  is_one (getItem "itqan_profile_completed" s).

(** The invariant of the data model: [requiresProfileCompletion] is true
    iff a User exists, the provider reports authenticated, and neither the
    User's own flag nor the persisted flag says the profile is completed. *)
Definition completionInvariant (a : Auth0State) (s : State) : Prop :=
  requiresProfileCompletion s = true <->
  exists u, user s = Some u /\ auth0IsAuthenticated a = true /\
            profileCompleted u = false /\ persistedCompleted s = false.

End Auth.

(** ** login-form.tsx and signup-form.tsx *)

Module Forms.

(** An element of [validation.errors]. *)
Record ValidationError := {
  field : string;
  message : string
}.

Record ValidationResult := {
  isValid : bool;
  errors : list ValidationError
}.

(** Modelled from the spec: the [Dictionary] type of lib/i18n is not among
    the sources. The forms read [dict.auth.validation.loginFailed],
    [signupFailed] and [networkError]; [requiredMessage] is the message the
    dictionary holds for a required field left empty ("validation errors
    (field-scoped, shown inline)"). *)
Record Dictionary := {
  loginFailed : string;
  signupFailed : string;
  networkError : string;
  requiredMessage : string -> string
}.

(** [formData.name], the empty string for a key the object lacks. *)
Definition fieldValue (formData : gmap string string) (name : string) : string :=
  default "" (formData !! name).

(** Modelled from the spec: [validateLoginForm] and [validateSignupForm]
    of lib/validations are not among the sources. The spec has "field-level
    validation producing a mapping from field name to error message" and
    "submitting with any required field empty yields a non-empty error for
    that field": the validator reports, for every required field whose value
    is empty, the dictionary's message for that field, and the form is valid
    when nothing is reported. *)
Definition validateRequired (required : list string)
    (formData : gmap string string) (dict : Dictionary) : ValidationResult :=
  let errors :=
    flat_map (fun name =>
                if String.eqb (fieldValue formData name) ""
                then [{| field := name; message := requiredMessage dict name |}]
                else [])
             required in
  {| isValid := match errors with [] => true | _ => false end;
     errors := errors |}.

(** The user record in an answer of [loginUser] or [signupUser]. *)
Record AccountUser := {
  account_id : string;
  account_email : string;
  account_firstName : string;
  account_lastName : string
}.

(** [{ success, user?, token?, error? }] *)
Record AuthResponse := {
  success : bool;
  response_user : option AccountUser;
  token : option string;
  error : option string
}.

(** What a submit handler does to the world: the backend operation, and
    on success the call into the auth context and the navigation. *)
Inductive Call :=
| LoginUser (email password : string)
| SignupUser (formData : gmap string string)
| ContextLogin (user : AccountUser) (token : string)
| ContextUpdateUser (user : Auth.User)
| LocationAssign (href : string).

(** The calls that reach the network. *)
Definition isNetworkCall (c : Call) : bool :=
  match c with
  | LoginUser _ _ | SignupUser _ => true
  | _ => false
  end.

(** The state of a form component. *)
Record FormState := {
  formData : gmap string string;
  fieldErrors : gmap string string;
  isLoading : bool;
  submitError : string
}.

Definition setErrors (e : gmap string string) (st : FormState) : FormState :=
  {| formData := formData st; fieldErrors := e;
     isLoading := isLoading st; submitError := submitError st |}.

Definition setIsLoading (b : bool) (st : FormState) : FormState :=
  {| formData := formData st; fieldErrors := fieldErrors st;
     isLoading := b; submitError := submitError st |}.

Definition setSubmitError (m : string) (st : FormState) : FormState :=
  {| formData := formData st; fieldErrors := fieldErrors st;
     isLoading := isLoading st; submitError := m |}.

(** [validation.errors.forEach(error => { fieldErrors[error.field] = error.message })]
    on an empty [fieldErrors]. *)
Definition collectErrors (errors : list ValidationError) : gmap string string :=
  fold_left (fun fieldErrors error => <[field error := message error]> fieldErrors)
            errors ∅.

Section Handlers.
(** The two validators are imported from lib/validations. *)
Variable validateLoginForm : gmap string string -> Dictionary -> ValidationResult.
Variable validateSignupForm : gmap string string -> Dictionary -> ValidationResult.
Variable dict : Dictionary.
Variable locale : string.

(** [handleEmailLogin] of login-form.tsx. [answer] is how [loginUser]
    settles if it is called: [None] when it rejects. *)
Definition handleEmailLogin (answer : option AuthResponse) (st : FormState)
  : FormState * list Call :=
  let st := setSubmitError "" st in
  let validation := validateLoginForm (formData st) dict in
  if negb (isValid validation) then
    (setErrors (collectErrors (errors validation)) st, [])
  else
    let st := setIsLoading true st in
    let call := LoginUser (fieldValue (formData st) "email")
                          (fieldValue (formData st) "password") in
    match answer with
    | Some response =>
        match success response, response_user response,
              Auth.nonempty (token response) with
        | true, Some u, Some t =>
            (setIsLoading false st, [call; ContextLogin u t])
        | _, _, _ =>
            (setIsLoading false
               (setSubmitError (Auth.or_default (error response) (loginFailed dict)) st),
             [call])
        end
    | None =>
        (setIsLoading false (setSubmitError (networkError dict) st), [call])
    end.

(** [handleSubmit] of signup-form.tsx. *)
Definition handleSubmit (answer : option AuthResponse) (st : FormState)
  : FormState * list Call :=
  let st := setSubmitError "" st in
  let validation := validateSignupForm (formData st) dict in
  if negb (isValid validation) then
    (setErrors (collectErrors (errors validation)) st, [])
  else
    let st := setIsLoading true st in
    let call := SignupUser (formData st) in
    match answer with
    | Some response =>
        match success response, response_user response,
              Auth.nonempty (token response) with
        | true, Some u, Some _ =>
            let auth0User :=
              {| Auth.id := account_id u;
                 Auth.email := account_email u;
                 Auth.firstName := account_firstName u;
                 Auth.lastName := account_lastName u;
                 Auth.provider := "email";
                 Auth.profileCompleted := true;
                 Auth.auth0Id := Some (account_id u) |} in
            (setIsLoading false st,
             [call; ContextUpdateUser auth0User;
              LocationAssign ("/" +:+ locale +:+ "/dashboard")])
        | _, _, _ =>
            (setIsLoading false
               (setSubmitError (Auth.or_default (error response) (signupFailed dict)) st),
             [call])
        end
    | None =>
        (setIsLoading false (setSubmitError (networkError dict) st), [call])
    end.
End Handlers.

End Forms.

(** ** Scenarios

    Concrete states and inputs on which the properties below are tried. *)

Module PaginationScenarios.
Import Pagination.

(** The first page of the mock catalogue: 156 assets, 20 per page. *)
Definition first_page : PaginationInfo :=
  {| page := 1; per_page := 20; total := 156; pages := 8;
     has_next := true; has_prev := false |}.

Definition last_page : PaginationInfo :=
  {| page := 8; per_page := 20; total := 156; pages := 8;
     has_next := false; has_prev := true |}.

Definition middle_page : PaginationInfo :=
  {| page := 6; per_page := 20; total := 236; pages := 12;
     has_next := true; has_prev := true |}.

Definition few_pages : PaginationInfo :=
  {| page := 2; per_page := 20; total := 45; pages := 3;
     has_next := true; has_prev := true |}.

Definition single_page : PaginationInfo :=
  {| page := 1; per_page := 20; total := 12; pages := 1;
     has_next := false; has_prev := false |}.

End PaginationScenarios.

Module FilterScenarios.
Import FiltersSidebar.

Definition some_filters : FiltersState :=
  {| categories := ["quran"; "hadith"; "quran"]; formats := ["json"];
     languages := ["ar"]; licenses := [] |}.

End FilterScenarios.

Module DashboardScenarios.
Import Pagination FiltersSidebar Dashboard.

(** The third results page of the mock catalogue, nothing typed yet. *)
Definition on_page_three : Screen :=
  {| dashboard := handlePageChange 3 initialState; localValue := "" |}.

(** "quran" typed in the search box on page 3, not yet submitted. *)
Definition typed_on_page_three : Screen := dispatch (SearchTyped "quran") on_page_three.

End DashboardScenarios.

Module AuthScenarios.
Import Auth.

Definition signed_out : Auth0State :=
  {| auth0User := None; auth0IsAuthenticated := false; auth0IsLoading := false |}.

(** A social login whose connection exposes no email claim. *)
Definition amina : Auth0User :=
  {| sub := "github|42"; email_claim := None;
     given_name := Some "Amina"; family_name := None |}.

Definition signed_in : Auth0State :=
  {| auth0User := Some amina; auth0IsAuthenticated := true; auth0IsLoading := false |}.

Definition amina_backend : BackendUser :=
  {| backend_id := "7"; backend_email := "amina@example.org";
     first_name := "Amina"; last_name := "Said" |}.

(** A user as the signup form would hand it over, profile not completed. *)
Definition draft_user : User :=
  {| id := "u1"; email := "u1@example.org"; firstName := "U"; lastName := "One";
     provider := "email"; profileCompleted := false; auth0Id := Some "u1" |}.

(** First render, empty storage, then the sync effect once the provider
    has settled on [signed_in] and the fallback lookup met a network error. *)
Definition fresh_session : State :=
  syncUser signed_in UiFetchRejected (initialState ∅).

(** The same session after the profile form was accepted by the backend. *)
Definition completed_session : State :=
  fst (completeProfile "en" signed_in (SubmitOk (inr amina_backend)) fresh_session).

(** A settled visitor without a session. *)
Definition visitor : State :=
  syncUser signed_out UiFetchRejected (initialState ∅).

(** The provider at the first render. *)
Definition still_loading : Auth0State :=
  {| auth0User := None; auth0IsAuthenticated := false; auth0IsLoading := true |}.

(** A session restored at mount: the stored user has an open profile. *)
Definition restored : State :=
  initialState {[ "itqan_user" := JsonOf draft_user ]}.

End AuthScenarios.

Module FormScenarios.
Import Forms.

Definition english : Dictionary :=
  {| loginFailed := "Login failed"; signupFailed := "Signup failed";
     networkError := "Network error";
     requiredMessage := fun name => "Required: " +:+ name |}.

(** The fields of the two forms, all taken as required. *)
Definition loginFields : list string := ["email"; "password"].

Definition signupFields : list string :=
  ["firstName"; "lastName"; "jobTitle"; "phoneNumber"; "email"; "password"].

(** The login form with a password typed and the email left empty. *)
Definition no_email : FormState :=
  {| formData := {[ "email" := ""; "password" := "secret" ]};
     fieldErrors := ∅; isLoading := false; submitError := "" |}.

Definition filled_in : FormState :=
  {| formData := {[ "email" := "amina@example.org"; "password" := "secret" ]};
     fieldErrors := ∅; isLoading := false; submitError := "" |}.

End FormScenarios.

(** ** pagination.tsx: the page buttons *)

Module PageButtons.
Import Pagination.

(** The numbers on the buttons, the ellipses left out. *)
Definition pageNumbers (entries : list PageEntry) : list Z :=
  flat_map (fun e => match e with PageNum n => [n] | ellipsis => [] end) entries.

(** [const isCurrentPage = pageNum === page], for an entry of the list. *)
Definition isCurrentPage (p : PaginationInfo) (e : PageEntry) : bool :=
  match e with
  | PageNum pageNum => pageNum =? page p
  | ellipsis => false
  end.

(** The buttons drawn with the "default" variant. *)
Definition highlighted (p : PaginationInfo) : list PageEntry :=
  List.filter (isCurrentPage p) (getVisiblePages p).

End PageButtons.

(** ** filters-sidebar.tsx: the collapsible sections *)

Module SidebarSections.

(** [new Set(['categories', 'formats', 'languages', 'licenses'])] *)
Definition initiallyExpanded : gset string :=
  {[ "categories"; "formats"; "languages"; "licenses" ]}.

(** [toggleSection]: the new value of [expandedSections]. *)
Definition toggleSection (sectionKey : string) (expandedSections : gset string)
  : gset string :=
  let newExpanded := expandedSections in
  if bool_decide (sectionKey ∈ newExpanded)
  then newExpanded ∖ {[ sectionKey ]}
  else newExpanded ∪ {[ sectionKey ]}.

End SidebarSections.

(** ** dashboard-content.tsx: sequences of events *)

Module DashboardRuns.
Import Dashboard.

(** The screen after the events of a list, the first one first. *)
Definition run (events : list Event) (sc : Screen) : Screen :=
  fold_left (fun sc ev => dispatch ev sc) events sc.

(** The events of the search bar. *)
Definition isSearchEvent (ev : Event) : bool :=
  match ev with
  | SearchTyped _ | SearchSubmitted | SearchCleared | SearchKeyDown _ => true
  | _ => false
  end.

(** The events of the filters sidebar. *)
Definition isFilterEvent (ev : Event) : bool :=
  match ev with
  | FilterToggled _ _ _ | FiltersCleared => true
  | _ => false
  end.

End DashboardRuns.

(** ** auth0-integrated-provider.tsx: a page reload *)

Module Reload.
Import Auth.

(** A reload of the page: React state starts afresh over the same
    [localStorage], and the mount effect runs. *)
Definition remount (s : State) : State :=
  loadFromStorage (initialState (localStorage s)).

(** The User that [syncUser] builds from the provider's user, the outcome
    of the [/userinfo] lookup and the value of the persisted flag. *)
Definition syncedUser (au : Auth0User) (ui : UserinfoOutcome) (completed : bool) : User :=
  let resolvedEmail :=
    match nonempty (email_claim au) with
    | Some e => Some e
    | None => userinfoEmail ui
    end in
  let userData :=
    {| id := sub au;
       email := or_default resolvedEmail "";
       firstName := or_default (given_name au) "";
       lastName := or_default (family_name au) "";
       provider := "auth0";
       profileCompleted := false;
       auth0Id := Some (sub au) |} in
  if completed then markCompleted userData else userData.

End Reload.

(** ** auth0-integrated-provider.tsx: what the provider hands down *)

Module ProviderView.
Import Auth.

(** The fields of the context value that consumers read. *)
Record AuthContextValue := {
  ctx_user : option User;
  ctx_isAuthenticated : bool;
  ctx_isLoading : bool;
  ctx_requiresProfileCompletion : bool
}.

Definition contextValue (a : Auth0State) (s : State) : AuthContextValue :=
  {| ctx_user := user s;
     ctx_isAuthenticated := auth0IsAuthenticated a;
     ctx_isLoading := isLoading s || auth0IsLoading a;
     ctx_requiresProfileCompletion := requiresProfileCompletion s |}.

(** What the provider renders: the loading screen in the language of the
    locale, or its children under the context value. *)
Inductive Rendered :=
| AuthLoadingScreen (arabic : bool)
| Children (value : AuthContextValue).

Definition render (locale : string) (a : Auth0State) (s : State) : Rendered :=
  if isLoading s || auth0IsLoading a
  then AuthLoadingScreen (String.eqb locale "ar")
  else Children (contextValue a s).

Inductive ScreenHint := hint_login | hint_signup.

(** [options?: { connection?, screen_hint? }] *)
Record LoginOptions := {
  opt_connection : option string;
  opt_screen_hint : option ScreenHint
}.

(** The [authorizationParams] handed to the identity bridge. *)
Record AuthorizationParams := {
  redirect_uri : string;
  audience : option string;
  scope : string;
  connection : option string;
  screen_hint : option ScreenHint
}.

(** [loginWithRedirect]: the argument of its one call of
    [auth0LoginWithRedirect]. [APP_URL] and [AUDIENCE] are the two
    variables of [env] it reads. *)
Definition loginWithRedirect (locale APP_URL : string) (AUDIENCE : option string)
    (options : option LoginOptions) : AuthorizationParams :=
  {| redirect_uri := APP_URL +:+ "/" +:+ locale +:+ "/auth/callback";
     audience := AUDIENCE;
     scope := "openid profile email offline_access";
     connection := options ≫= opt_connection;
     screen_hint := options ≫= opt_screen_hint |}.

(** [handleSocialSignup] of auth0-signup-form.tsx. *)
Definition handleSocialSignup (locale APP_URL : string) (AUDIENCE : option string)
    (chosen : string) : AuthorizationParams :=
  loginWithRedirect locale APP_URL AUDIENCE
    (Some {| opt_connection := Some chosen; opt_screen_hint := Some hint_signup |}).

(** [window.location], as far as [getCallbackUrl] reads it. *)
Record Location := {
  origin : string;
  pathname : string
}.

(** [getCallbackUrl] of auth0-provider.tsx, split into the base and the
    path it concatenates; [None] is the run without a [window]. *)
Definition callbackBase (window : option Location) (APP_URL : string) : string :=
  match window with
  | Some w => origin w
  | None => APP_URL
  end.

Definition callbackPath (window : option Location) : string :=
  match window with
  | Some w =>
      let currentPath := pathname w in
      let locale := if String.prefix "/ar" currentPath then "ar" else "en" in
      "/" +:+ locale +:+ "/auth/callback"
  | None => "/en/auth/callback"
  end.

Definition getCallbackUrl (window : option Location) (APP_URL : string) : string :=
  callbackBase window APP_URL +:+ callbackPath window.

End ProviderView.

(** ** header.tsx *)

Module Header.
Import Auth ProviderView.

(** The authentication corner of the header. *)
Inductive AuthArea :=
| Placeholder
| UserBlock (u : User)
| LoginButton (disabled : bool).

Definition authArea (v : AuthContextValue) : AuthArea :=
  if ctx_isLoading v then Placeholder
  else match ctx_isAuthenticated v, ctx_user v with
       | true, Some u => UserBlock u
       | _, _ => LoginButton (ctx_isLoading v)
       end.

(** The navigation links are drawn for [isAuthenticated]. *)
Definition navigationShown (v : AuthContextValue) : bool := ctx_isAuthenticated v.

(** [handleLogin]: the target of its [router.push]. *)
Definition handleLogin (locale : string) : string := "/" +:+ locale +:+ "/auth/login".

End Header.

(** ** The forms: typing, and the profile-completion form *)

Module FormInput.
Import Forms.

Definition setFormData (f : gmap string string) (st : FormState) : FormState :=
  {| formData := f; fieldErrors := fieldErrors st;
     isLoading := isLoading st; submitError := submitError st |}.

(** [handleInputChange(field)] on an input event with [e.target.value = value]. *)
Definition handleInputChange (fieldName value : string) (st : FormState) : FormState :=
  let errorsBefore := fieldErrors st in
  let st := setFormData (<[fieldName := value]> (formData st)) st in
  match Auth.nonempty (errorsBefore !! fieldName) with
  | Some _ => setErrors (<[fieldName := ""]> (fieldErrors st)) st
  | None => st
  end.

(** [errors.name && <p>{errors.name}</p>]: the message drawn under a field. *)
Definition shownError (st : FormState) (fieldName : string) : option string :=
  Auth.nonempty (fieldErrors st !! fieldName).

End FormInput.

Module ProfileForm.
Import Forms.

(** The keys of the object handed to [validateSocialProfileForm]. *)
Definition validatedFields : list string :=
  ["jobTitle"; "phoneNumber"; "businessModel"; "teamSize"; "aboutYourself"].

(** [{ jobTitle: formData.jobTitle, ... }] *)
Definition validatedData (formData : gmap string string) : gmap string string :=
  list_to_map (map (fun name => (name, fieldValue formData name)) validatedFields).

Section Handler.
(** [validateSocialProfileForm] is imported from lib/validations. *)
Variable validateSocialProfileForm : gmap string string -> Dictionary -> ValidationResult.
Variable dict : Dictionary.
Variable locale : string.

(** [handleSubmit] of [SocialProfileForm], together with the provider's
    [completeProfile] that it awaits: the form, the provider's state, and
    whether [completeProfile] was called. *)
Definition handleSubmit (a : Auth.Auth0State) (out : Auth.SubmitOutcome)
    (st : FormState) (s : Auth.State) : FormState * Auth.State * bool :=
  let st := setSubmitError "" st in
  let validation := validateSocialProfileForm (validatedData (formData st)) dict in
  if negb (isValid validation) then
    (setErrors (collectErrors (errors validation)) st, s, false)
  else
    let st := setIsLoading true st in
    match Auth.completeProfile locale a out s with
    | (s', Auth.Resolved) => (setIsLoading false st, s', true)
    | (s', Auth.Rejected _) =>
        (setIsLoading false (setSubmitError (networkError dict) st), s', true)
    end.
End Handler.

End ProfileForm.

(** ** Further scenarios *)

Module SubmitScenarios.
Import Forms.

(** The answer of the backend to an accepted signup. *)
Definition signed_up : AuthResponse :=
  {| success := true;
     response_user := Some {| account_id := "9"; account_email := "amina@example.org";
                              account_firstName := "Amina";
                              account_lastName := "Said" |};
     token := Some "tok"; error := None |}.

(** A profile form with its five validated fields filled in. *)
Definition profile_filled : FormState :=
  {| formData := {[ "firstName" := "Amina"; "lastName" := "Said";
                    "jobTitle" := "Editor"; "phoneNumber" := "+966500000000";
                    "businessModel" := "nonprofit"; "teamSize" := "5";
                    "aboutYourself" := "Publisher of tafsir data." ]};
     fieldErrors := ∅; isLoading := false; submitError := "" |}.

End SubmitScenarios.

(** ** Stored texts that are no JSON *)

Module StoredText.

(** The four characters the JSON grammar skips around a value: tab, line
    feed, carriage return, space. *)
Definition isJsonWhitespace (c : ascii) : bool :=
  existsb (Ascii.eqb c) ["009"%char; "010"%char; "013"%char; " "%char].

(** The characters a JSON value can begin with: an object, an array, a
    string (the quotation mark, character 34), a number, [true], [false],
    [null]. *)
Definition startsJsonValue (c : ascii) : bool :=
  existsb (Ascii.eqb c)
    ["{"%char; "["%char; "034"%char; "-"%char;
     "0"%char; "1"%char; "2"%char; "3"%char; "4"%char;
     "5"%char; "6"%char; "7"%char; "8"%char; "9"%char;
     "t"%char; "f"%char; "n"%char].

Fixpoint skipWhitespace (text : string) : string :=
  match text with
  | String c rest => if isJsonWhitespace c then skipWhitespace rest else text
  | EmptyString => EmptyString
  end.

(** A sufficient test for [JSON.parse(text)] to throw a SyntaxError:
    after the leading whitespace the text is over, or goes on with a
    character no JSON value begins with. *)
Definition cannotBeJSON (text : string) : bool :=
  match skipWhitespace text with
  | EmptyString => true
  | String c _ => negb (startsJsonValue c)
  end.

End StoredText.

(** ** Properties of pagination.tsx *)

Module PaginationFacts.
Import Pagination PaginationScenarios.

Lemma push_loop_spec fuel : forall i hi acc,
  (Z.to_nat (hi - i + 1) < fuel)%nat ->
  push_loop fuel i hi acc =
  acc ++ map (fun k => PageNum (i + Z.of_nat k)) (seq 0 (Z.to_nat (hi - i + 1))).
Proof.
  induction fuel as [|fuel IH]; intros i hi acc Hfuel; [lia|].
  cbn [push_loop]. destruct (Z.leb_spec i hi) as [Hle|Hgt].
  - rewrite IH by lia.
    replace (Z.to_nat (hi - i + 1)) with (S (Z.to_nat (hi - (i + 1) + 1))) by lia.
    cbn [seq map]. rewrite <- seq_shift, map_map, <- app_assoc. cbn [app].
    rewrite Z.add_0_r. do 2 f_equal.
    apply map_ext. intros k. f_equal. lia.
  - replace (Z.to_nat (hi - i + 1)) with 0%nat by lia.
    cbn. now rewrite app_nil_r.
Qed.

Lemma for_push_spec lo hi acc :
  for_push lo hi acc =
  acc ++ map (fun k => PageNum (lo + Z.of_nat k)) (seq 0 (Z.to_nat (hi - lo + 1))).
Proof. unfold for_push. apply push_loop_spec. lia. Qed.

Lemma for_push_from_one n : for_push 1 n [] = pages_upto n.
Proof.
  rewrite for_push_spec. cbn [app]. unfold pages_upto.
  replace (Z.to_nat (n - 1 + 1)) with (Z.to_nat n) by lia.
  rewrite <- seq_shift, map_map. apply map_ext. intros k. f_equal. lia.
Qed.

Lemma for_push_In lo hi acc n :
  lo <= n <= hi -> In (PageNum n) (for_push lo hi acc).
Proof.
  intros Hn. rewrite for_push_spec. apply in_or_app. right.
  apply in_map_iff. exists (Z.to_nat (n - lo)). split.
  - f_equal. lia.
  - apply in_seq. lia.
Qed.

Lemma for_push_keeps lo hi acc e : In e acc -> In e (for_push lo hi acc).
Proof. intros H. rewrite for_push_spec. apply in_or_app. now left. Qed.


Example last_page_range :
  (shown_from <$> Pagination last_page) = Some 141 /\
  (shown_to <$> Pagination last_page) = Some 156.
Proof. split; reflexivity. Qed.


(** C10. With [1 <= page <= pages]: at most seven pages are listed in full
    and in ascending order; with more than seven pages the list still holds
    the current, the first and the last page; and at most one page renders
    nothing at all. *)
Theorem visible_pages_cover (p : PaginationInfo) :
  1 <= page p <= pages p ->
  (pages p <= 7 -> getVisiblePages p = pages_upto (pages p)) /\
  (pages p > 7 ->
     In (PageNum (page p)) (getVisiblePages p) /\
     In (PageNum 1) (getVisiblePages p) /\
     In (PageNum (pages p)) (getVisiblePages p)) /\
  (pages p <= 1 -> Pagination p = None).
Proof.
  intros Hpage. unfold getVisiblePages, maxVisiblePages. cbn [app].
  split; [|split].
  - intros Hsmall. destruct (Z.leb_spec (pages p) 7); [|lia].
    apply for_push_from_one.
  - intros Hbig. destruct (Z.leb_spec (pages p) 7); [lia|].
    destruct (Z.leb_spec (page p) 4) as [Hnear|Hfar].
    + repeat split.
      * apply in_or_app. left. apply in_or_app. left.
        destruct (Z.eq_dec (page p) 1) as [->|Hne].
        -- apply for_push_keeps. now left.
        -- apply for_push_In. lia.
      * apply in_or_app. left. apply in_or_app. left.
        apply for_push_keeps. now left.
      * apply in_or_app. right. now left.
    + destruct (Z.geb_spec (page p) (pages p - 3)) as [Hend|Hmid].
      * repeat split.
        -- apply for_push_In. lia.
        -- apply for_push_keeps. now left.
        -- apply for_push_In. lia.
      * repeat split.
        -- apply in_or_app. left. apply in_or_app. left. apply for_push_In. lia.
        -- apply in_or_app. left. apply in_or_app. left.
           apply for_push_keeps. now left.
        -- apply in_or_app. right. now left.
  - intros Hone. unfold Pagination.
    destruct (Z.leb_spec (pages p) 1); [reflexivity|lia].
Qed.

Example pages_upto_five :
  pages_upto 5 = [PageNum 1; PageNum 2; PageNum 3; PageNum 4; PageNum 5].
Proof. reflexivity. Qed.

Example middle_page_buttons :
  getVisiblePages middle_page =
  [PageNum 1; ellipsis; PageNum 5; PageNum 6; PageNum 7; ellipsis; PageNum 12].
Proof. reflexivity. Qed.

Example first_page_buttons :
  getVisiblePages first_page =
  [PageNum 1; PageNum 2; PageNum 3; PageNum 4; PageNum 5; ellipsis; PageNum 8].
Proof. reflexivity. Qed.

Lemma visible_pages_cover_witness :
  (1 <= page middle_page <= pages middle_page /\ pages middle_page > 7 /\
   In (PageNum 6) (getVisiblePages middle_page) /\
   In (PageNum 1) (getVisiblePages middle_page) /\
   In (PageNum 12) (getVisiblePages middle_page)) /\
  (1 <= page few_pages <= pages few_pages /\ pages few_pages <= 7 /\
   getVisiblePages few_pages = pages_upto 3) /\
  (1 <= page single_page <= pages single_page /\ pages single_page <= 1 /\
   Pagination single_page = None).
Proof.
  assert (H12 : 1 <= page middle_page <= pages middle_page) by (cbn; lia).
  assert (H3 : 1 <= page few_pages <= pages few_pages) by (cbn; lia).
  assert (H1 : 1 <= page single_page <= pages single_page) by (cbn; lia).
  assert (Hbig : pages middle_page > 7) by (cbn; lia).
  assert (Hsmall : pages few_pages <= 7) by (cbn; lia).
  assert (Hone : pages single_page <= 1) by (cbn; lia).
  split; [|split].
  - split; [exact H12|]. split; [exact Hbig|].
    exact (proj1 (proj2 (visible_pages_cover middle_page H12)) Hbig).
  - split; [exact H3|]. split; [exact Hsmall|].
    exact (proj1 (visible_pages_cover few_pages H3) Hsmall).
  - split; [exact H1|]. split; [exact Hone|].
    exact (proj2 (proj2 (visible_pages_cover single_page H1)) Hone).
Defined.

End PaginationFacts.

(** ** Properties of filters-sidebar.tsx *)

Module FiltersFacts.
Import FiltersSidebar FilterScenarios.

(** The callback receives the state the handler computes, whatever the
    parent does with it. *)
Lemma handleFilterChange_callback {R} (k : FiltersState -> R) filters t v checked :
  handleFilterChange k filters t v checked =
  k (handleFilterChange (fun next => next) filters t v checked).
Proof. reflexivity. Qed.

Lemma facet_with_facet_same filters t l : facet (with_facet filters t l) t = l.
Proof. now destruct t. Qed.

Lemma facet_with_facet_other filters t t' l :
  t' <> t -> facet (with_facet filters t l) t' = facet filters t'.
Proof. destruct t, t'; cbn; congruence. Qed.

(** JavaScript's [currentValues.filter(v => v !== value)] removes every
    occurrence of [value]. *)
Lemma filter_neq_remove (value : string) (l : list string) :
  List.filter (fun v => negb (String.eqb v value)) l = List.remove string_dec value l.
Proof.
  induction l as [|x l IH]; [reflexivity|].
  cbn [List.filter List.remove].
  destruct (string_dec value x) as [->|Hne].
  - rewrite String.eqb_refl. exact IH.
  - destruct (String.eqb_spec x value) as [->|_]; [congruence|].
    cbn. now rewrite IH.
Qed.

(** C9. Unchecking [v] in facet [t] hands the parent the previous state
    with every occurrence of [v] removed from the [t]-array, checking it
    hands over the previous [t]-array with [v] appended at its end, the three
    other arrays are the previous ones in both cases, and clearing hands over
    four empty arrays. *)
Theorem filter_change_frame (filters : FiltersState) (t : FilterKey) (v : string) :
  facet (handleFilterChange (fun next => next) filters t v false) t
    = List.remove string_dec v (facet filters t) /\
  facet (handleFilterChange (fun next => next) filters t v true) t
    = facet filters t ++ [v] /\
  (forall (checked : bool) (t' : FilterKey), t' <> t ->
     facet (handleFilterChange (fun next => next) filters t v checked) t'
       = facet filters t') /\
  (forall t' : FilterKey, facet (clearAllFilters (fun next => next)) t' = []).
Proof.
  unfold handleFilterChange, clearAllFilters. repeat split.
  - now rewrite facet_with_facet_same, filter_neq_remove.
  - now rewrite facet_with_facet_same.
  - intros checked t' Hne. now apply facet_with_facet_other.
  - now intros [].
Qed.

Example uncheck_quran :
  handleFilterChange (fun next => next) some_filters Categories "quran" false =
  {| categories := ["hadith"]; formats := ["json"];
     languages := ["ar"]; licenses := [] |}.
Proof. reflexivity. Qed.

Example check_pdf :
  handleFilterChange (fun next => next) some_filters Formats "pdf" true =
  {| categories := ["quran"; "hadith"; "quran"]; formats := ["json"; "pdf"];
     languages := ["ar"]; licenses := [] |}.
Proof. reflexivity. Qed.

Lemma filter_change_frame_witness :
  Formats <> Categories /\
  facet (handleFilterChange (fun next => next) some_filters Categories "quran" false)
    Formats = ["json"].
Proof.
  assert (H : Formats <> Categories) by discriminate.
  split; [exact H|].
  destruct (filter_change_frame some_filters Categories "quran") as (_ & _ & Hframe & _).
  exact (Hframe false Formats H).
Defined.

End FiltersFacts.

(** ** Properties of dashboard-content.tsx *)

Module DashboardFacts.
Import Pagination FiltersSidebar Dashboard DashboardScenarios.

Lemma handleSearch_spec query s :
  searchQuery (handleSearch query s) = query /\
  filters (handleSearch query s) = filters s /\
  page (pagination (handleSearch query s)) = 1.
Proof. now cbn. Qed.

Lemma handleFiltersChange_spec newFilters s :
  searchQuery (handleFiltersChange newFilters s) = searchQuery s /\
  filters (handleFiltersChange newFilters s) = newFilters /\
  page (pagination (handleFiltersChange newFilters s)) = 1.
Proof. now cbn. Qed.

Lemma handlePageChange_spec n s :
  searchQuery (handlePageChange n s) = searchQuery s /\
  filters (handlePageChange n s) = filters s /\
  page (pagination (handlePageChange n s)) = n.
Proof. now cbn. Qed.

(** Case analysis on what a control's guard or the rendering decides. *)
Ltac split_controls :=
  repeat match goal with
    | |- context [if ?b then _ else _] => destruct b
    | |- context [match ?o with Some _ => _ | None => _ end] => destruct o
    end.

(** C5. Any change of the search text should leave the page at 1. On page
    3, typing "quran" in the search box goes through
    [onChange={setSearchQuery}], the raw setter: the search text changes and
    the page is still 3. The sibling path [onSearch={handleSearch}] does
    reset the page. *)
Lemma typing_changes_search_text_keeps_page :
  searchQuery (dashboard (dispatch (SearchTyped "quran") on_page_three))
    <> searchQuery (dashboard on_page_three) /\
  page (pagination (dashboard (dispatch (SearchTyped "quran") on_page_three))) = 3.
Proof. split; [discriminate|reflexivity]. Qed.

(** X30. A search that the search bar commits through [onSearch]
    (submit, Enter, the clear button) and every change of a facet selection
    leave the page at 1; page navigation leaves the search text and the
    facet selections as they were. *)
Theorem committed_search_and_facets_reset_page (ev : Event) (sc : Screen) :
  (callsOnSearch ev sc = true ->
     page (pagination (dashboard (dispatch ev sc))) = 1) /\
  (filters (dashboard (dispatch ev sc)) <> filters (dashboard sc) ->
     page (pagination (dashboard (dispatch ev sc))) = 1) /\
  (isPageNavigation ev = true ->
     searchQuery (dashboard (dispatch ev sc)) = searchQuery (dashboard sc) /\
     filters (dashboard (dispatch ev sc)) = filters (dashboard sc)).
Proof.
  destruct sc as [d lv].
  unfold dispatch, searchBar, onDashboard, SearchBar.handleKeyDown.
  cbn [dashboard localValue].
  split; [|split].
  - destruct ev; cbn [callsOnSearch localValue]; try discriminate.
    + reflexivity.
    + destruct (String.eqb lv ""); cbn; [discriminate|reflexivity].
    + intros ->. reflexivity.
  - destruct ev; split_controls; cbn; congruence.
  - destruct ev; cbn [isPageNavigation]; try discriminate; intros _;
      split_controls; now cbn.
Qed.

Example enter_resets_page :
  dashboard (dispatch (SearchKeyDown "Enter") typed_on_page_three) =
  handleSearch "quran" initialState.
Proof. reflexivity. Qed.

Example next_from_page_three :
  page (pagination (dashboard (dispatch NextClicked on_page_three))) = 4.
Proof. reflexivity. Qed.

Lemma committed_search_and_facets_reset_page_witness :
  (callsOnSearch (SearchKeyDown "Enter") typed_on_page_three = true /\
   page (pagination (dashboard (dispatch (SearchKeyDown "Enter") typed_on_page_three))) = 1) /\
  (filters (dashboard (dispatch (FilterToggled Categories "quran" true) on_page_three))
     <> filters (dashboard on_page_three) /\
   page (pagination (dashboard
     (dispatch (FilterToggled Categories "quran" true) on_page_three))) = 1) /\
  (isPageNavigation NextClicked = true /\
   searchQuery (dashboard (dispatch NextClicked typed_on_page_three)) = "quran").
Proof.
  assert (H1 : callsOnSearch (SearchKeyDown "Enter") typed_on_page_three = true)
    by reflexivity.
  assert (H2 : filters (dashboard (dispatch (FilterToggled Categories "quran" true)
                 on_page_three)) <> filters (dashboard on_page_three))
    by discriminate.
  assert (H3 : isPageNavigation NextClicked = true) by reflexivity.
  split; [|split].
  - split; [exact H1|].
    exact (proj1 (committed_search_and_facets_reset_page _ _) H1).
  - split; [exact H2|].
    exact (proj1 (proj2 (committed_search_and_facets_reset_page _ _)) H2).
  - split; [exact H3|].
    exact (proj1 (proj2 (proj2
             (committed_search_and_facets_reset_page NextClicked typed_on_page_three)) H3)).
Defined.

End DashboardFacts.

(** ** Properties of auth0-integrated-provider.tsx *)

Module AuthFacts.
Import Auth AuthScenarios.

(** *** A first session *)

Example fresh_session_user :
  user fresh_session =
  Some {| id := "github|42"; email := ""; firstName := "Amina"; lastName := "";
          provider := "auth0"; profileCompleted := false;
          auth0Id := Some "github|42" |} /\
  requiresProfileCompletion fresh_session = true /\
  isLoading fresh_session = false.
Proof. repeat split. Qed.

(** *** Storage *)

Lemma getItem_setItem key value s : getItem key (setItem key value s) = Some value.
Proof. unfold getItem, setItem, onStorage. cbn. apply lookup_insert_eq. Qed.

Lemma getItem_setItem_ne key key' value s :
  key <> key' -> getItem key' (setItem key value s) = getItem key' s.
Proof. intros H. unfold getItem, setItem, onStorage. cbn. now apply lookup_insert_ne. Qed.

Lemma getItem_removeItem key s : getItem key (removeItem key s) = None.
Proof. unfold getItem, removeItem, onStorage. cbn. apply lookup_delete_eq. Qed.

Lemma getItem_removeItem_ne key key' s :
  key <> key' -> getItem key' (removeItem key s) = getItem key' s.
Proof. intros H. unfold getItem, removeItem, onStorage. cbn. now apply lookup_delete_ne. Qed.

Lemma persist_some_user u s :
  user (persistUserState (Some u) s) = Some u /\
  getItem "itqan_user" (persistUserState (Some u) s) = Some (JsonOf u) /\
  getItem "itqan_profile_completed" (persistUserState (Some u) s)
    = getItem "itqan_profile_completed" s /\
  requiresProfileCompletion (persistUserState (Some u) s) = requiresProfileCompletion s.
Proof.
  unfold persistUserState. repeat split.
  - apply getItem_setItem.
  - now rewrite getItem_setItem_ne.
Qed.

Lemma persist_no_user s :
  user (persistUserState None s) = None /\
  getItem "itqan_user" (persistUserState None s) = None /\
  getItem "itqan_profile_completed" (persistUserState None s) = None.
Proof.
  unfold persistUserState. repeat split.
  - rewrite getItem_removeItem_ne by discriminate. apply getItem_removeItem.
  - apply getItem_removeItem.
Qed.

(** *** The sync effect *)

Lemma syncUser_signed_in a au ui s :
  auth0IsLoading a = false -> auth0IsAuthenticated a = true -> auth0User a = Some au ->
  exists u,
    user (syncUser a ui s) = Some u /\
    getItem "itqan_user" (syncUser a ui s) = Some (JsonOf u) /\
    getItem "itqan_profile_completed" (syncUser a ui s)
      = getItem "itqan_profile_completed" s /\
    profileCompleted u = persistedCompleted s /\
    requiresProfileCompletion (syncUser a ui s) = negb (persistedCompleted s) /\
    email u = or_default (match nonempty (email_claim au) with
                          | Some e => Some e
                          | None => userinfoEmail ui
                          end) "".
Proof.
  intros Hload Hauth Huser. unfold syncUser. rewrite Hload, Hauth, Huser.
  unfold persistedCompleted.
  change (getItem "itqan_profile_completed" (setIsLoading true s))
    with (getItem "itqan_profile_completed" s).
  destruct (is_one (getItem "itqan_profile_completed" s)); eexists;
    (split; [reflexivity|]); (split; [apply getItem_setItem|]);
    (split; [unfold getItem; cbn; now rewrite lookup_insert_ne|]);
    repeat split.
Qed.

Lemma syncUser_signed_out a ui s :
  auth0IsLoading a = false ->
  auth0IsAuthenticated a = false \/ auth0User a = None ->
  user (syncUser a ui s) = None /\
  requiresProfileCompletion (syncUser a ui s) = false /\
  getItem "itqan_user" (syncUser a ui s) = None /\
  getItem "itqan_profile_completed" (syncUser a ui s) = None.
Proof.
  intros Hload Hout. unfold syncUser. rewrite Hload.
  assert (Hbranch :
    match auth0IsAuthenticated a, auth0User a with
    | true, Some _ => False
    | _, _ => True
    end) by (destruct Hout as [-> | ->]; [exact I | now destruct (auth0IsAuthenticated a)]).
  destruct (auth0IsAuthenticated a), (auth0User a); try contradiction;
    (repeat split;
     [ unfold getItem; cbn; rewrite lookup_delete_ne by discriminate;
       apply lookup_delete_eq
     | unfold getItem; cbn; apply lookup_delete_eq ]).
Qed.

(** *** C1 *)

(** C1, counterexample. [updateUser] sets the flag from the user it is
    given: for a signed-out provider the flag is up without an authenticated
    session, and in a session whose persisted flag is '1' the flag is up
    although the profile is recorded as completed. The mount effect does not
    ask the provider either: a stored user with an open profile raises the
    flag while the provider is still loading. *)
Lemma flag_set_without_asking_provider :
  ~ completionInvariant signed_out (updateUser draft_user visitor) /\
  ~ completionInvariant signed_in (updateUser draft_user completed_session) /\
  ~ completionInvariant still_loading (loadFromStorage restored).
Proof.
  split; [|split]; intros [Hreq _];
    destruct (Hreq eq_refl) as (u & _ & Hauth & _ & Hflag); discriminate.
Qed.

Example updateUser_on_visitor :
  user (updateUser draft_user visitor) = Some draft_user /\
  requiresProfileCompletion (updateUser draft_user visitor) = true /\
  auth0IsAuthenticated signed_out = false.
Proof. repeat split. Qed.

Example loadFromStorage_on_restored :
  user (loadFromStorage restored) = Some draft_user /\
  requiresProfileCompletion (loadFromStorage restored) = true /\
  auth0IsAuthenticated still_loading = false.
Proof. repeat split. Qed.

(** C1, amended. After the sync effect has run against a settled provider,
    after logout and after a successful completeProfile,
    [requiresProfileCompletion] is true iff a User exists, the provider
    reports authenticated and the completion flag, local or persisted, is
    false. After [updateUser u] it is true iff [u.profileCompleted] is false,
    and after the mount-time load of a stored User it is true iff neither
    that User's flag nor the persisted flag is set. *)
Theorem completion_flag_after_operations (a : Auth0State) (s : State) :
  (forall ui, auth0IsLoading a = false -> completionInvariant a (syncUser a ui s)) /\
  (forall locale url, completionInvariant a (logout locale url s)) /\
  (forall locale a' b,
     completionInvariant a (fst (completeProfile locale a' (SubmitOk (inr b)) s))) /\
  (forall u,
     user (updateUser u s) = Some u /\
     (requiresProfileCompletion (updateUser u s) = true <-> profileCompleted u = false)) /\
  (forall u,
     getItem "itqan_user" s = Some (JsonOf u) ->
     user (loadFromStorage s) = Some u /\
     (requiresProfileCompletion (loadFromStorage s) = true <->
      profileCompleted u = false /\ persistedCompleted (loadFromStorage s) = false)).
Proof.
  split; [|split; [|split; [|split]]].
  - intros ui Hload. unfold completionInvariant.
    destruct (auth0IsAuthenticated a) eqn:Hauth, (auth0User a) as [au|] eqn:Huser.
    + destruct (syncUser_signed_in a au ui s Hload Hauth Huser)
        as (u & Hu & _ & Hflag & Hdone & Hreq & _).
      rewrite Hreq, Hu. unfold persistedCompleted in *. rewrite Hflag.
      split.
      * intros Hopen. exists u. repeat split.
        -- rewrite Hdone. now destruct (is_one _).
        -- now destruct (is_one _).
      * intros (u' & [= <-] & _ & Hopen & _). rewrite Hopen in Hdone.
        now rewrite <- Hdone.
    + destruct (syncUser_signed_out a ui s Hload (or_intror Huser)) as (Hu & Hreq & _).
      rewrite Hreq, Hu. split; [discriminate|]. now intros (u & Hsome & _).
    + destruct (syncUser_signed_out a ui s Hload (or_introl Hauth)) as (Hu & Hreq & _).
      rewrite Hreq, Hu. split; [discriminate|]. now intros (u & Hsome & _).
    + destruct (syncUser_signed_out a ui s Hload (or_introl Hauth)) as (Hu & Hreq & _).
      rewrite Hreq, Hu. split; [discriminate|]. now intros (u & Hsome & _).
  - intros locale url. unfold completionInvariant, logout. cbn.
    split; [discriminate|]. now intros (u & Hsome & _).
  - intros locale a' b. unfold completionInvariant. cbn.
    split; [discriminate|]. intros (u & [= <-] & _ & Hopen & _). discriminate.
  - intros u. unfold updateUser. cbn. split; [reflexivity|]. apply negb_true_iff.
  - intros u Hstored. unfold loadFromStorage, persistedCompleted.
    rewrite Hstored. cbn. split; [reflexivity|].
    change (getItem "itqan_profile_completed" (setUser (Some u) s))
      with (getItem "itqan_profile_completed" s).
    rewrite andb_true_iff, !negb_true_iff. tauto.
Qed.

Lemma completion_flag_after_operations_witness :
  (auth0IsLoading signed_in = false /\
   completionInvariant signed_in (syncUser signed_in UiFetchRejected restored)) /\
  (getItem "itqan_user" restored = Some (JsonOf draft_user) /\
   user (loadFromStorage restored) = Some draft_user /\
   (requiresProfileCompletion (loadFromStorage restored) = true <->
    profileCompleted draft_user = false /\
    persistedCompleted (loadFromStorage restored) = false)).
Proof.
  assert (H1 : auth0IsLoading signed_in = false) by reflexivity.
  assert (H2 : getItem "itqan_user" restored = Some (JsonOf draft_user)) by reflexivity.
  destruct (completion_flag_after_operations signed_in restored)
    as (Hsync & _ & _ & _ & Hload).
  split.
  - split; [exact H1|]. exact (Hsync UiFetchRejected H1).
  - split; [exact H2|]. exact (Hload draft_user H2).
Defined.

(** *** C2 *)

(** [logout] goes through [setUser], not through [persistUserState]:
    [localStorage] is what it was. *)
Lemma logout_keeps_storage locale url s :
  localStorage (logout locale url s) = localStorage s.
Proof. reflexivity. Qed.

(** C2 at a session with a completed profile: after [logout] the User
    record and the completion flag are still in [localStorage]. *)
Theorem logout_leaves_persisted_session :
  let s := logout "en" "http://localhost:3000" completed_session in
  user s = None /\
  requiresProfileCompletion s = false /\
  (exists u, getItem "itqan_user" s = Some (JsonOf u)) /\
  getItem "itqan_profile_completed" s = Some (Text "1").
Proof. cbn zeta. repeat split. eexists. reflexivity. Qed.

(** The branch of the sync effect for a signed-out provider does clear
    both keys, through [persistUserState(null)]. *)
Example sync_after_logout_clears :
  let s := syncUser signed_out UiFetchRejected
             (logout "en" "http://localhost:3000" completed_session) in
  getItem "itqan_user" s = None /\ getItem "itqan_profile_completed" s = None.
Proof. split; reflexivity. Qed.

(** *** C3 *)

(** C3, counterexample. A visitor on the login page: nothing requires
    profile completion, the location is an auth page and no callback, and
    nobody is redirected to the dashboard. And with the flag up but no
    authenticated session, the dashboard location leads to the login page,
    not to the completion page. *)
Lemma guard_needs_signed_in_user :
  (isLoading visitor = false /\ auth0IsLoading signed_out = false /\
   requiresProfileCompletion visitor = false /\
   includes "/en/auth/login" "/auth/" = true /\
   includes "/en/auth/login" "/auth/callback" = false /\
   guardRedirect "en" signed_out "/en/auth/login" visitor = None) /\
  (isLoading (updateUser draft_user visitor) = false /\
   requiresProfileCompletion (updateUser draft_user visitor) = true /\
   includes "/en/dashboard" "/auth/complete-profile" = false /\
   includes "/en/dashboard" "/auth/callback" = false /\
   guardRedirect "en" signed_out "/en/dashboard" (updateUser draft_user visitor)
     = Some "/en/auth/login").
Proof. repeat split. Qed.

(** C3, amended. Once neither the provider nor the reconciler is loading:
    on a callback location the guard redirects nowhere; elsewhere, for a
    User whom the provider reports authenticated, it redirects to the
    completion page when [requiresProfileCompletion] holds and the location
    is not the completion page, and to the dashboard when it does not hold
    and the location is an auth page. *)
Theorem guard_redirects_signed_in_user (locale : string) (a : Auth0State)
    (pathname : string) (s : State) :
  isLoading s = false -> auth0IsLoading a = false ->
  (includes pathname "/auth/callback" = true ->
     guardRedirect locale a pathname s = None) /\
  (includes pathname "/auth/callback" = false ->
   auth0IsAuthenticated a = true -> hasUser s = true ->
     (requiresProfileCompletion s = true ->
      includes pathname "/auth/complete-profile" = false ->
        guardRedirect locale a pathname s
          = Some ("/" +:+ locale +:+ "/auth/complete-profile")) /\
     (requiresProfileCompletion s = false ->
      includes pathname "/auth/" = true ->
        guardRedirect locale a pathname s = Some ("/" +:+ locale +:+ "/dashboard"))).
Proof.
  intros Hs Ha. unfold guardRedirect. rewrite Hs, Ha. cbn [orb].
  split.
  - now intros ->.
  - intros -> -> ->. cbn [andb negb]. split.
    + now intros -> ->.
    + now intros -> ->.
Qed.

Example fresh_session_sent_to_completion :
  effects (routeProtection "en" signed_in "/en/dashboard" fresh_session)
    = [RouterReplace "/en/auth/complete-profile"].
Proof. reflexivity. Qed.

Example callback_is_exempt :
  guardRedirect "en" signed_in "/en/auth/callback" fresh_session = None.
Proof. reflexivity. Qed.

Lemma guard_redirects_signed_in_user_witness :
  (isLoading fresh_session = false /\ auth0IsLoading signed_in = false /\
   includes "/en/dashboard" "/auth/callback" = false /\
   auth0IsAuthenticated signed_in = true /\ hasUser fresh_session = true /\
   requiresProfileCompletion fresh_session = true /\
   includes "/en/dashboard" "/auth/complete-profile" = false /\
   guardRedirect "en" signed_in "/en/dashboard" fresh_session
     = Some "/en/auth/complete-profile") /\
  (isLoading completed_session = false /\
   includes "/en/auth/login" "/auth/callback" = false /\
   hasUser completed_session = true /\
   requiresProfileCompletion completed_session = false /\
   includes "/en/auth/login" "/auth/" = true /\
   guardRedirect "en" signed_in "/en/auth/login" completed_session
     = Some "/en/dashboard") /\
  (includes "/en/auth/callback" "/auth/callback" = true /\
   guardRedirect "en" signed_in "/en/auth/callback" fresh_session = None).
Proof.
  split; [|split].
  - repeat (split; [reflexivity|]).
    refine (proj1 (proj2 (guard_redirects_signed_in_user "en" signed_in "/en/dashboard"
              fresh_session _ _) _ _ _) _ _); reflexivity.
  - repeat (split; [reflexivity|]).
    refine (proj2 (proj2 (guard_redirects_signed_in_user "en" signed_in "/en/auth/login"
              completed_session _ _) _ _ _) _ _); reflexivity.
  - split; [reflexivity|].
    refine (proj1 (guard_redirects_signed_in_user "en" signed_in "/en/auth/callback"
              fresh_session _ _) _); reflexivity.
Defined.

(** *** C4 *)

(** C4, counterexample. The backend responds ok, but the body of the
    response is not JSON and [response.json()] rejects: the promise of
    completeProfile rejects with that error, the state is the one before,
    [requiresProfileCompletion] is still true and no completion flag is
    persisted. *)
Lemma ok_response_without_user_record :
  completeProfile "en" signed_in
    (SubmitOk (inl (ErrorWith "Unexpected end of JSON input"))) fresh_session
    = (fresh_session, Rejected (ErrorWith "Unexpected end of JSON input")) /\
  requiresProfileCompletion fresh_session = true /\
  getItem "itqan_profile_completed" fresh_session = None /\
  (profileCompleted <$> user fresh_session) = Some false.
Proof. repeat split. Qed.

(** C4, amended. When the backend answers ok and the body of its answer
    parses as the JSON user record, completeProfile resolves, the User in
    memory and under 'itqan_user' is one with [profileCompleted] true,
    'itqan_profile_completed' holds '1', and [requiresProfileCompletion] is
    false. *)
Theorem completeProfile_success (locale : string) (a : Auth0State)
    (backendUser : BackendUser) (s : State) :
  let s' := fst (completeProfile locale a (SubmitOk (inr backendUser)) s) in
  snd (completeProfile locale a (SubmitOk (inr backendUser)) s) = Resolved /\
  (exists u, user s' = Some u /\
             getItem "itqan_user" s' = Some (JsonOf u) /\
             profileCompleted u = true) /\
  getItem "itqan_profile_completed" s' = Some (Text "1") /\
  requiresProfileCompletion s' = false.
Proof.
  cbn zeta. unfold completeProfile. cbn [fst snd].
  split; [reflexivity|]. split; [|split].
  - eexists. split; [reflexivity|]. split; [|reflexivity].
    unfold getItem. cbn. rewrite lookup_insert_ne by discriminate.
    apply lookup_insert_eq.
  - unfold getItem. cbn. apply lookup_insert_eq.
  - reflexivity.
Qed.

Example completed_session_flag :
  requiresProfileCompletion fresh_session = true /\
  requiresProfileCompletion completed_session = false /\
  effects completed_session = [RouterReplace "/en/dashboard"].
Proof. repeat split. Qed.

(** *** C8 *)

(** C8. Without a primary email claim, a fallback lookup that meets a
    network error or a response that is not ok leaves the synced and the
    persisted User with the empty email; and a profile submission that fails
    rejects to the caller, with the error it met, in an unchanged state. *)
Theorem failures_degrade (a : Auth0State) (au : Auth0User) (ui : UserinfoOutcome)
    (s : State) :
  (auth0IsLoading a = false -> auth0IsAuthenticated a = true ->
   auth0User a = Some au -> email_claim au = None -> lookupFailed ui = true ->
     exists u, user (syncUser a ui s) = Some u /\
               getItem "itqan_user" (syncUser a ui s) = Some (JsonOf u) /\
               email u = "") /\
  (forall locale error,
     completeProfile locale a (SubmitTokenRejected error) s = (s, Rejected error) /\
     completeProfile locale a (SubmitFetchRejected error) s = (s, Rejected error) /\
     completeProfile locale a (SubmitOk (inl error)) s = (s, Rejected error)) /\
  (forall locale errorField,
     completeProfile locale a (SubmitNotOk errorField) s
       = (s, Rejected (ErrorWith (or_default errorField "Failed to complete profile")))).
Proof.
  split; [|split].
  - intros Hload Hauth Huser Hclaim Hfail.
    destruct (syncUser_signed_in a au ui s Hload Hauth Huser)
      as (u & Hu & Hstored & _ & _ & _ & Hemail).
    exists u. repeat split; try assumption.
    rewrite Hemail, Hclaim. cbn.
    destruct ui as [| |[] body]; try reflexivity. discriminate.
  - repeat split.
  - reflexivity.
Qed.

Lemma failures_degrade_witness :
  (auth0IsLoading signed_in = false /\ auth0IsAuthenticated signed_in = true /\
   auth0User signed_in = Some amina /\ email_claim amina = None /\
   lookupFailed (UiResponded false None) = true) /\
  exists u, user (syncUser signed_in (UiResponded false None) restored) = Some u /\
            getItem "itqan_user" (syncUser signed_in (UiResponded false None) restored)
              = Some (JsonOf u) /\
            email u = "".
Proof.
  split; [repeat split|].
  refine (proj1 (failures_degrade signed_in amina (UiResponded false None) restored)
            _ _ _ _ _); reflexivity.
Defined.

End AuthFacts.

(** ** Properties of login-form.tsx and signup-form.tsx *)

Module FormsFacts.
Import Forms FormScenarios.

(** After the [forEach], a field that has errors shows the message of
    one of them (the last one). *)
Lemma forEach_error_shown (errs : list ValidationError) (acc : gmap string string)
    (name : string) :
  (exists e, In e errs /\ field e = name) ->
  exists e, In e errs /\ field e = name /\
            fold_left (fun fieldErrors error => <[field error := message error]> fieldErrors)
              errs acc !! name = Some (message e).
Proof.
  induction errs as [|x errs IH] using rev_ind; intros (e & Hin & Hfield).
  - contradiction.
  - rewrite fold_left_app. cbn [fold_left].
    destruct (string_dec (field x) name) as [Hx|Hx].
    + exists x. split; [apply in_or_app; right; now left|].
      split; [exact Hx|]. rewrite Hx. apply lookup_insert_eq.
    + apply in_app_or in Hin as [Hin|[<-|[]]]; [|contradiction].
      destruct IH as (e' & Hin' & Hfield' & Hlook); [now exists e|].
      exists e'. split; [apply in_or_app; now left|].
      split; [exact Hfield'|]. now rewrite lookup_insert_ne.
Qed.

Lemma validateRequired_errors required formData dict e :
  In e (errors (validateRequired required formData dict)) ->
  In (field e) required /\ message e = requiredMessage dict (field e).
Proof.
  cbn. intros Hin. apply in_flat_map in Hin as (name & Hname & Hin).
  destruct (String.eqb (fieldValue formData name) ""); [|contradiction].
  destruct Hin as [<-|[]]. now split.
Qed.

Lemma validateRequired_reports required formData dict name :
  In name required -> fieldValue formData name = "" ->
  isValid (validateRequired required formData dict) = false /\
  In {| field := name; message := requiredMessage dict name |}
     (errors (validateRequired required formData dict)).
Proof.
  intros Hreq Hempty.
  assert (Hin : In {| field := name; message := requiredMessage dict name |}
                   (errors (validateRequired required formData dict))).
  { cbn. apply in_flat_map. exists name. split; [exact Hreq|].
    rewrite Hempty. cbn. now left. }
  split; [|exact Hin].
  unfold validateRequired in *. cbn in *.
  now destruct (flat_map _ required).
Qed.

(** An invalid form stops the handler before the backend operation,
    whatever validator is plugged in. *)
Lemma invalid_form_makes_no_call validateLoginForm validateSignupForm dict locale
    answer st :
  (isValid (validateLoginForm (formData st) dict) = false ->
     snd (handleEmailLogin validateLoginForm dict answer st) = []) /\
  (isValid (validateSignupForm (formData st) dict) = false ->
     snd (handleSubmit validateSignupForm dict locale answer st) = []).
Proof.
  unfold handleEmailLogin, handleSubmit. cbn [formData setSubmitError].
  split; now intros ->.
Qed.

Lemma shown_required_error required formData dict name :
  (forall f, In f required -> requiredMessage dict f <> "") ->
  In name required -> fieldValue formData name = "" ->
  exists m,
    collectErrors (errors (validateRequired required formData dict)) !! name = Some m /\
    m <> "".
Proof.
  intros Hdict Hreq Hempty.
  destruct (validateRequired_reports required formData dict name Hreq Hempty)
    as [_ Hin].
  destruct (forEach_error_shown (errors (validateRequired required formData dict)) ∅ name)
    as (e & He & Hfield & Hlook); [eexists; split; [exact Hin|reflexivity]|].
  exists (message e). split; [exact Hlook|].
  apply validateRequired_errors in He as [Hf ->]. now apply Hdict.
Qed.

(** C7. Whatever the form holds, a submit with a required field left empty
    shows a non-empty error message for that field and makes no call at
    all, in the login form and in the signup form. *)
Theorem empty_required_field_blocks_submit
    (loginRequired signupRequired : list string) (dict : Dictionary)
    (locale : string) (answer : option AuthResponse) (st : FormState)
    (name : string) :
  (forall f, requiredMessage dict f <> "") ->
  fieldValue (formData st) name = "" ->
  (In name loginRequired ->
     (exists m,
        fieldErrors (fst (handleEmailLogin (validateRequired loginRequired)
                            dict answer st)) !! name = Some m /\ m <> "") /\
     snd (handleEmailLogin (validateRequired loginRequired) dict answer st) = []) /\
  (In name signupRequired ->
     (exists m,
        fieldErrors (fst (handleSubmit (validateRequired signupRequired)
                            dict locale answer st)) !! name = Some m /\ m <> "") /\
     snd (handleSubmit (validateRequired signupRequired) dict locale answer st) = []).
Proof.
  intros Hdict Hempty. split; intros Hreq.
  - destruct (validateRequired_reports loginRequired (formData st) dict name Hreq Hempty)
      as [Hinvalid _].
    unfold handleEmailLogin. cbn [formData setSubmitError]. rewrite Hinvalid.
    cbn [negb fst snd fieldErrors setErrors]. split; [|reflexivity].
    apply shown_required_error; auto.
  - destruct (validateRequired_reports signupRequired (formData st) dict name Hreq Hempty)
      as [Hinvalid _].
    unfold handleSubmit. cbn [formData setSubmitError]. rewrite Hinvalid.
    cbn [negb fst snd fieldErrors setErrors]. split; [|reflexivity].
    apply shown_required_error; auto.
Qed.

(** *** The login form, tried *)

Example no_email_submitted :
  handleEmailLogin (validateRequired loginFields) english None no_email =
  ({| formData := {[ "email" := ""; "password" := "secret" ]};
      fieldErrors := {[ "email" := "Required: email" ]};
      isLoading := false; submitError := "" |}, []).
Proof. reflexivity. Qed.

Example filled_in_submitted_offline :
  handleEmailLogin (validateRequired loginFields) english None filled_in =
  ({| formData := {[ "email" := "amina@example.org"; "password" := "secret" ]};
      fieldErrors := ∅; isLoading := false; submitError := "Network error" |},
   [LoginUser "amina@example.org" "secret"]).
Proof. reflexivity. Qed.

Lemma empty_required_field_blocks_submit_witness :
  ((forall f, requiredMessage english f <> "") /\
   fieldValue (formData no_email) "email" = "" /\
   In "email" loginFields /\ In "email" signupFields) /\
  ((exists m,
      fieldErrors (fst (handleEmailLogin (validateRequired loginFields)
                          english None no_email)) !! "email" = Some m /\ m <> "") /\
   snd (handleEmailLogin (validateRequired loginFields) english None no_email) = []) /\
  ((exists m,
      fieldErrors (fst (handleSubmit (validateRequired signupFields)
                          english "en" None no_email)) !! "email" = Some m /\ m <> "") /\
   snd (handleSubmit (validateRequired signupFields) english "en" None no_email) = []).
Proof.
  assert (H1 : forall f, requiredMessage english f <> "") by (intros f; discriminate).
  assert (H2 : fieldValue (formData no_email) "email" = "") by reflexivity.
  assert (H3 : In "email" loginFields) by (now left).
  assert (H4 : In "email" signupFields) by (cbn; tauto).
  split; [now repeat split|]. split.
  - exact (proj1 (empty_required_field_blocks_submit loginFields signupFields english "en"
                    None no_email "email" H1 H2) H3).
  - exact (proj2 (empty_required_field_blocks_submit loginFields signupFields english "en"
                    None no_email "email" H1 H2) H4).
Defined.

End FormsFacts.


(** ** Further properties of pagination.tsx *)

Module PageButtonsFacts.
Import Pagination PageButtons PaginationFacts.

Lemma for_push_fixed lo hi n acc :
  Z.to_nat (hi - lo + 1) = n ->
  for_push lo hi acc = acc ++ map (fun k => PageNum (lo + Z.of_nat k)) (seq 0 n).
Proof. intros <-. apply for_push_spec. Qed.

Lemma windows_of_seven (p : PaginationInfo) :
  pages p > 7 ->
  getVisiblePages p =
    if page p <=? 4 then
      [PageNum 1; PageNum 2; PageNum 3; PageNum 4; PageNum 5; ellipsis;
       PageNum (pages p)]
    else if page p >=? pages p - 3 then
      [PageNum 1; ellipsis; PageNum (pages p - 4); PageNum (pages p - 3);
       PageNum (pages p - 2); PageNum (pages p - 1); PageNum (pages p)]
    else
      [PageNum 1; ellipsis; PageNum (page p - 1); PageNum (page p);
       PageNum (page p + 1); ellipsis; PageNum (pages p)].
Proof.
  intros Hbig. unfold getVisiblePages, maxVisiblePages.
  destruct (Z.leb_spec (pages p) 7); [lia|]. cbn [app].
  destruct (page p <=? 4); [reflexivity|].
  destruct (page p >=? pages p - 3).
  - rewrite (for_push_fixed _ _ 5%nat) by lia. cbn.
    rewrite Z.add_0_r.
    replace (pages p - 4 + Z.of_nat 1) with (pages p - 3) by lia.
    replace (pages p - 4 + Z.of_nat 2) with (pages p - 2) by lia.
    replace (pages p - 4 + Z.of_nat 3) with (pages p - 1) by lia.
    replace (pages p - 4 + Z.of_nat 4) with (pages p) by lia.
    reflexivity.
  - rewrite (for_push_fixed _ _ 3%nat) by lia. cbn.
    rewrite Z.add_0_r.
    replace (page p - 1 + Z.of_nat 1) with (page p) by lia.
    replace (page p - 1 + Z.of_nat 2) with (page p + 1) by lia.
    reflexivity.
Qed.

(** X1. With more than seven pages the list is one of three windows of
    seven entries: the first five pages, the last five pages, or the
    neighbours of the current page, each closed by the first and last page. *)
Theorem visible_pages_windows (p : PaginationInfo) :
  pages p > 7 ->
  getVisiblePages p =
    if page p <=? 4 then
      [PageNum 1; PageNum 2; PageNum 3; PageNum 4; PageNum 5; ellipsis;
       PageNum (pages p)]
    else if page p >=? pages p - 3 then
      [PageNum 1; ellipsis; PageNum (pages p - 4); PageNum (pages p - 3);
       PageNum (pages p - 2); PageNum (pages p - 1); PageNum (pages p)]
    else
      [PageNum 1; ellipsis; PageNum (page p - 1); PageNum (page p);
       PageNum (page p + 1); ellipsis; PageNum (pages p)].
Proof. exact (windows_of_seven p). Qed.

Lemma visible_pages_windows_witness :
  pages PaginationScenarios.middle_page > 7 /\
  getVisiblePages PaginationScenarios.middle_page =
    [PageNum 1; ellipsis; PageNum 5; PageNum 6; PageNum 7; ellipsis; PageNum 12].
Proof.
  assert (H : pages PaginationScenarios.middle_page > 7) by (cbn; lia).
  split; [exact H|].
  exact (visible_pages_windows PaginationScenarios.middle_page H).
Defined.

(** X2. Whatever the pagination state, the list has as many entries as
    there are pages when there are at most seven, and seven entries
    otherwise: the control never grows with the catalogue. *)
Theorem visible_pages_length (p : PaginationInfo) :
  length (getVisiblePages p) = if pages p <=? 7 then Z.to_nat (pages p) else 7%nat.
Proof.
  destruct (Z.leb_spec (pages p) 7) as [Hsmall|Hbig].
  - unfold getVisiblePages, maxVisiblePages.
    destruct (Z.leb_spec (pages p) 7); [|lia].
    rewrite for_push_from_one. unfold pages_upto.
    now rewrite length_map, length_seq.
  - rewrite windows_of_seven by lia.
    destruct (page p <=? 4); [reflexivity|].
    now destruct (page p >=? pages p - 3).
Qed.

Lemma pageNumbers_pages_upto n :
  pageNumbers (pages_upto n) = map Z.of_nat (seq 1 (Z.to_nat n)).
Proof.
  unfold pages_upto, pageNumbers.
  induction (seq 1 (Z.to_nat n)) as [|k l IH]; [reflexivity|].
  cbn. now rewrite <- IH.
Qed.

Lemma visible_pages_small (p : PaginationInfo) :
  pages p <= 7 -> getVisiblePages p = pages_upto (pages p).
Proof.
  intros Hsmall. unfold getVisiblePages, maxVisiblePages.
  destruct (Z.leb_spec (pages p) 7); [|lia]. apply for_push_from_one.
Qed.

Lemma seq_strictly_ascending a n :
  StronglySorted Z.lt (map Z.of_nat (seq a n)).
Proof.
  revert a. induction n as [|n IH]; intros a; cbn; constructor.
  - apply IH.
  - apply List.Forall_forall. intros x Hx.
    apply in_map_iff in Hx as (k & <- & Hk). apply in_seq in Hk. lia.
Qed.

(** X3. Whatever the pagination state, the numbers on the buttons are
    strictly ascending from left to right; no page is offered twice. *)
Theorem page_numbers_ascending (p : PaginationInfo) :
  StronglySorted Z.lt (pageNumbers (getVisiblePages p)).
Proof.
  destruct (Z.le_gt_cases (pages p) 7) as [Hsmall|Hbig].
  - rewrite visible_pages_small, pageNumbers_pages_upto by assumption.
    apply seq_strictly_ascending.
  - rewrite windows_of_seven by lia.
    destruct (Z.leb_spec (page p) 4).
    + cbn. repeat (constructor; [|repeat constructor; lia]). constructor.
    + destruct (Z.geb_spec (page p) (pages p - 3)); cbn;
        repeat (constructor; [|repeat constructor; lia]); constructor.
Qed.

Lemma pageNumbers_bounds (p : PaginationInfo) (n : Z) :
  In n (pageNumbers (getVisiblePages p)) -> 1 <= n <= pages p.
Proof.
  destruct (Z.le_gt_cases (pages p) 7) as [Hsmall|Hbig].
  - rewrite visible_pages_small, pageNumbers_pages_upto by assumption.
    intros Hn. apply in_map_iff in Hn as (k & <- & Hk). apply in_seq in Hk. lia.
  - rewrite windows_of_seven by lia.
    destruct (Z.leb_spec (page p) 4).
    + cbn. intuition lia.
    + destruct (Z.geb_spec (page p) (pages p - 3)); cbn; intuition lia.
Qed.

(** X4. Whatever the pagination state, every number on a button is a page
    of the catalogue: at least 1 and at most [pages]. *)
Theorem page_numbers_in_range (p : PaginationInfo) (n : Z) :
  In n (pageNumbers (getVisiblePages p)) -> 1 <= n <= pages p.
Proof. exact (pageNumbers_bounds p n). Qed.

Lemma page_numbers_in_range_witness :
  In 7 (pageNumbers (getVisiblePages PaginationScenarios.middle_page)) /\
  1 <= 7 <= pages PaginationScenarios.middle_page.
Proof.
  assert (H : In 7 (pageNumbers (getVisiblePages PaginationScenarios.middle_page)))
    by (vm_compute; do 3 right; left; reflexivity).
  split; [exact H|].
  exact (page_numbers_in_range PaginationScenarios.middle_page 7 H).
Defined.

Lemma highlighted_upto (c : Z) (a n : nat) :
  (a <= Z.to_nat c < a + n)%nat -> 0 <= c ->
  List.filter (fun e => match e with PageNum m => m =? c | ellipsis => false end)
    (map (fun k => PageNum (Z.of_nat k)) (seq a n)) = [PageNum c].
Proof.
  revert a. induction n as [|n IH]; intros a Hc Hpos; [lia|].
  cbn [seq map List.filter].
  destruct (Z.eqb_spec (Z.of_nat a) c) as [Heq|Hne].
  - f_equal; [now rewrite Heq|].
    clear IH. assert (Hall : forall k, In k (seq (S a) n) -> Z.of_nat k <> c).
    { intros k Hk. apply in_seq in Hk. lia. }
    induction (seq (S a) n) as [|k l IHl]; [reflexivity|].
    cbn. destruct (Z.eqb_spec (Z.of_nat k) c) as [Hk|_].
    + exfalso. apply (Hall k); [now left|exact Hk].
    + apply IHl. intros k' Hk'. apply Hall. now right.
  - apply IH; lia.
Qed.

(** X5. With [1 <= page <= pages], exactly one button is drawn as the
    current page, and it is the button of [page]. *)
Theorem one_current_button (p : PaginationInfo) :
  1 <= page p <= pages p -> highlighted p = [PageNum (page p)].
Proof.
  intros Hpage. unfold highlighted.
  destruct (Z.le_gt_cases (pages p) 7) as [Hsmall|Hbig].
  - rewrite visible_pages_small by assumption. unfold pages_upto, isCurrentPage.
    apply highlighted_upto; lia.
  - rewrite windows_of_seven by lia. unfold isCurrentPage.
    destruct (Z.leb_spec (page p) 4).
    + assert (Hc : page p = 1 \/ page p = 2 \/ page p = 3 \/ page p = 4) by lia.
      cbn [List.filter].
      destruct (Z.eqb_spec (pages p) (page p)); [lia|].
      destruct Hc as [-> | [-> | [-> | ->]]]; reflexivity.
    + destruct (Z.geb_spec (page p) (pages p - 3)); cbn [List.filter];
        repeat match goal with
               | |- context [?a =? ?b] => destruct (Z.eqb_spec a b); try lia
               end; congruence.
Qed.

Lemma one_current_button_witness :
  1 <= page PaginationScenarios.middle_page <= pages PaginationScenarios.middle_page /\
  highlighted PaginationScenarios.middle_page = [PageNum 6].
Proof.
  assert (H : 1 <= page PaginationScenarios.middle_page
                <= pages PaginationScenarios.middle_page) by (cbn; lia).
  split; [exact H|]. exact (one_current_button PaginationScenarios.middle_page H).
Defined.

End PageButtonsFacts.


(** ** Further properties of filters-sidebar.tsx *)

Module SidebarFacts.
Import FiltersSidebar SidebarSections FilterScenarios.

(** X6. Toggling a section flips whether it is expanded and leaves every
    other section as it was; toggling it twice gives back the same set. *)
Theorem toggleSection_flips (sectionKey other : string) (expanded : gset string) :
  (sectionKey ∈ toggleSection sectionKey expanded <-> sectionKey ∉ expanded) /\
  (other <> sectionKey ->
     (other ∈ toggleSection sectionKey expanded <-> other ∈ expanded)) /\
  toggleSection sectionKey (toggleSection sectionKey expanded) = expanded.
Proof.
  unfold toggleSection. split; [|split].
  - case_bool_decide;
      rewrite ?elem_of_difference, ?elem_of_union, !elem_of_singleton; tauto.
  - intros Hne. case_bool_decide;
      rewrite ?elem_of_difference, ?elem_of_union, !elem_of_singleton; tauto.
  - destruct (decide (sectionKey ∈ expanded)) as [Hin|Hin].
    + rewrite (bool_decide_eq_true_2 _ Hin), bool_decide_eq_false_2.
      * apply set_eq. intros x.
        rewrite elem_of_union, elem_of_difference, elem_of_singleton.
        destruct (decide (x = sectionKey)) as [->|]; tauto.
      * rewrite elem_of_difference, elem_of_singleton. tauto.
    + rewrite (bool_decide_eq_false_2 _ Hin), bool_decide_eq_true_2.
      * apply set_eq. intros x.
        rewrite elem_of_difference, elem_of_union, elem_of_singleton.
        destruct (decide (x = sectionKey)) as [->|]; tauto.
      * rewrite elem_of_union, elem_of_singleton. tauto.
Qed.

Lemma toggleSection_flips_witness :
  "formats" <> "licenses" /\
  ("formats" ∈ toggleSection "licenses" initiallyExpanded <->
   "formats" ∈ initiallyExpanded).
Proof.
  assert (H : "formats" <> "licenses") by discriminate.
  split; [exact H|].
  exact (proj1 (proj2 (toggleSection_flips "licenses" "formats" initiallyExpanded)) H).
Defined.

Lemma FilterKey_eq_dec (a b : FilterKey) : {a = b} + {a <> b}.
Proof. decide equality. Qed.

Lemma isChecked_In filters t v : isChecked filters t v = true <-> In v (facet filters t).
Proof.
  unfold isChecked. rewrite existsb_exists. split.
  - intros (x & Hx & Heq). apply String.eqb_eq in Heq. now subst.
  - intros Hin. exists v. split; [exact Hin|apply String.eqb_refl].
Qed.

Lemma isChecked_facet filters filters' t v :
  facet filters' t = facet filters t -> isChecked filters' t v = isChecked filters t v.
Proof. unfold isChecked. now intros ->. Qed.

(** X7. After [handleFilterChange] the checkbox of the value shows what
    was asked for, checked or not, and every other checkbox of the sidebar
    shows what it showed before. *)
Theorem checkbox_shows_last_toggle (filters : FiltersState) (t : FilterKey)
    (v : string) (checked : bool) :
  isChecked (handleFilterChange (fun next => next) filters t v checked) t v = checked /\
  (forall t' w, t' <> t \/ w <> v ->
     isChecked (handleFilterChange (fun next => next) filters t v checked) t' w
       = isChecked filters t' w).
Proof.
  unfold handleFilterChange. split.
  - unfold isChecked. rewrite FiltersFacts.facet_with_facet_same.
    destruct checked.
    + rewrite existsb_app. cbn. rewrite String.eqb_refl. apply orb_true_r.
    + apply not_true_is_false. rewrite existsb_exists.
      intros (x & Hx & Heq). apply String.eqb_eq in Heq. subst x.
      apply filter_In in Hx as [_ Hx]. rewrite String.eqb_refl in Hx. discriminate.
  - intros t' w Hother.
    destruct (FilterKey_eq_dec t' t) as [->|Hne].
    + destruct Hother as [Ht|Hw]; [congruence|].
      unfold isChecked. rewrite FiltersFacts.facet_with_facet_same.
      destruct checked.
      * rewrite existsb_app. cbn.
        destruct (String.eqb_spec w v); [congruence|]. now rewrite !orb_false_r.
      * induction (facet filters t) as [|x l IH]; [reflexivity|].
        cbn. destruct (String.eqb_spec x v) as [->|Hx]; cbn.
        -- destruct (String.eqb_spec w v); [congruence|]. exact IH.
        -- now rewrite IH.
    + apply isChecked_facet. now apply FiltersFacts.facet_with_facet_other.
Qed.

Lemma checkbox_shows_last_toggle_witness :
  (Categories <> Categories \/ "hadith" <> "quran") /\
  isChecked (handleFilterChange (fun next => next) some_filters Categories "quran" false)
    Categories "hadith" = true.
Proof.
  assert (H : Categories <> Categories \/ "hadith" <> "quran") by (right; discriminate).
  split; [exact H|].
  exact (proj2 (checkbox_shows_last_toggle some_filters Categories "quran" false)
           Categories "hadith" H).
Defined.

Lemma with_facet_facet filters t : with_facet filters t (facet filters t) = filters.
Proof. now destruct filters, t. Qed.

Lemma with_facet_twice filters t l l' :
  with_facet (with_facet filters t l) t l' = with_facet filters t l'.
Proof. now destruct t. Qed.

Lemma filter_absent (v : string) (l : list string) :
  ~ In v l -> List.filter (fun x => negb (String.eqb x v)) l = l.
Proof.
  induction l as [|x l IH]; [reflexivity|]. intros Hnot. cbn.
  destruct (String.eqb_spec x v) as [->|_]; [exfalso; apply Hnot; now left|].
  cbn. rewrite IH; [reflexivity|]. intros Hin. apply Hnot. now right.
Qed.

(** X8. Checking a value that was not checked and unchecking it again
    gives back the filters exactly as they were. *)
Theorem check_then_uncheck (filters : FiltersState) (t : FilterKey) (v : string) :
  isChecked filters t v = false ->
  handleFilterChange (fun next => next)
    (handleFilterChange (fun next => next) filters t v true) t v false = filters.
Proof.
  intros Hnot. unfold handleFilterChange.
  rewrite FiltersFacts.facet_with_facet_same, with_facet_twice.
  rewrite List.filter_app. cbn. rewrite String.eqb_refl. cbn.
  rewrite app_nil_r, filter_absent.
  - apply with_facet_facet.
  - intros Hin. apply isChecked_In in Hin. congruence.
Qed.

Lemma check_then_uncheck_witness :
  isChecked some_filters Licenses "cc0" = false /\
  handleFilterChange (fun next => next)
    (handleFilterChange (fun next => next) some_filters Licenses "cc0" true)
    Licenses "cc0" false = some_filters.
Proof.
  assert (H : isChecked some_filters Licenses "cc0" = false) by reflexivity.
  split; [exact H|]. exact (check_then_uncheck some_filters Licenses "cc0" H).
Defined.

Lemma NoDup_filter_neq (v : string) (l : list string) :
  NoDup l -> NoDup (List.filter (fun x => negb (String.eqb x v)) l).
Proof.
  induction 1 as [|x l Hx Hl IH]; cbn; [constructor|].
  destruct (negb (String.eqb x v)); [|exact IH].
  constructor; [|exact IH].
  rewrite list_elem_of_In, filter_In. rewrite list_elem_of_In in Hx. tauto.
Qed.

(** X9. A checkbox delivers the opposite of what it shows. Under such
    events a facet array without repeated values stays without repeated
    values: no value is ever selected twice. *)
Theorem toggles_keep_values_distinct (filters : FiltersState) (t t' : FilterKey)
    (v : string) (checked : bool) :
  checked = negb (isChecked filters t v) ->
  NoDup (facet filters t') ->
  NoDup (facet (handleFilterChange (fun next => next) filters t v checked) t').
Proof.
  intros Hbox Hnodup. unfold handleFilterChange.
  destruct (FilterKey_eq_dec t' t) as [->|Hne].
  - rewrite FiltersFacts.facet_with_facet_same. destruct checked.
    + apply NoDup_app. split; [exact Hnodup|]. split; [|apply NoDup_singleton].
      intros x Hx Hv. apply list_elem_of_singleton in Hv. subst x.
      symmetry in Hbox. apply negb_true_iff in Hbox.
      apply list_elem_of_In, isChecked_In in Hx. congruence.
    + now apply NoDup_filter_neq.
  - now rewrite FiltersFacts.facet_with_facet_other.
Qed.

Lemma toggles_keep_values_distinct_witness :
  true = negb (isChecked some_filters Formats "pdf") /\
  NoDup (facet some_filters Formats) /\
  NoDup (facet (handleFilterChange (fun next => next) some_filters Formats "pdf" true)
           Formats).
Proof.
  assert (H1 : true = negb (isChecked some_filters Formats "pdf")) by reflexivity.
  assert (H2 : NoDup (facet some_filters Formats)).
  { cbn. apply NoDup_singleton. }
  split; [exact H1|]. split; [exact H2|].
  exact (toggles_keep_values_distinct some_filters Formats Formats "pdf" true H1 H2).
Defined.

(** X10. The "clear filters" button is drawn ([hasActiveFilters]) exactly
    when the filters differ from what [clearAllFilters] hands over; after
    clearing it is gone. *)
Theorem clear_button_shown_iff_not_cleared (filters : FiltersState) :
  hasActiveFilters filters = false <-> filters = clearAllFilters (fun next => next).
Proof.
  unfold hasActiveFilters, clearAllFilters. split.
  - destruct filters as [[|] [|] [|] [|]]; cbn; try discriminate. reflexivity.
  - now intros ->.
Qed.

End SidebarFacts.


(** ** Further properties of dashboard-content.tsx *)

Module DashboardRunsFacts.
Import Pagination FiltersSidebar Dashboard DashboardRuns DashboardScenarios.

Lemma syncLocalValue_same previous value :
  SearchBar.syncLocalValue previous value value = value.
Proof. unfold SearchBar.syncLocalValue. now destruct (String.eqb previous value). Qed.

Lemma syncLocalValue_unchanged value localValue :
  SearchBar.syncLocalValue value value localValue = localValue.
Proof. unfold SearchBar.syncLocalValue. now rewrite String.eqb_refl. Qed.

Lemma dispatch_box_shows_query ev sc :
  localValue sc = searchQuery (dashboard sc) ->
  localValue (dispatch ev sc) = searchQuery (dashboard (dispatch ev sc)).
Proof.
  destruct sc as [d lv]. cbn [localValue dashboard]. intros ->.
  unfold dispatch, searchBar, onDashboard, SearchBar.handleKeyDown.
  cbn [dashboard localValue].
  destruct ev; DashboardFacts.split_controls; cbn;
    rewrite ?syncLocalValue_same, ?syncLocalValue_unchanged; reflexivity.
Qed.

(** X11. If the search box shows the dashboard's search text, it still
    does after any sequence of events: the box and [searchQuery] never
    drift apart. *)
Theorem search_box_shows_query (events : list Event) (sc : Screen) :
  localValue sc = searchQuery (dashboard sc) ->
  localValue (run events sc) = searchQuery (dashboard (run events sc)).
Proof.
  unfold run. revert sc. induction events as [|ev events IH]; intros sc Hsc.
  - exact Hsc.
  - cbn [fold_left]. apply IH. now apply dispatch_box_shows_query.
Qed.

Lemma search_box_shows_query_witness :
  localValue initialScreen = searchQuery (dashboard initialScreen) /\
  localValue (run [SearchTyped "tafsir"; NextClicked; SearchCleared] initialScreen) = "".
Proof.
  assert (H : localValue initialScreen = searchQuery (dashboard initialScreen))
    by reflexivity.
  split; [exact H|].
  exact (search_box_shows_query [SearchTyped "tafsir"; NextClicked; SearchCleared]
           initialScreen H).
Defined.

Lemma dispatch_keeps_envelope ev sc :
  pagination (dashboard (dispatch ev sc)) =
  with_page (page (pagination (dashboard (dispatch ev sc)))) (pagination (dashboard sc)).
Proof.
  destruct sc as [d lv].
  unfold dispatch, searchBar, onDashboard, SearchBar.handleKeyDown.
  cbn [dashboard localValue].
  destruct ev; DashboardFacts.split_controls; cbn; now destruct (pagination d).
Qed.

(** X12. No sequence of events changes [per_page], [total], [pages],
    [has_next] or [has_prev]: the handlers write the page number and nothing
    else of the pagination, so an arrow that starts disabled stays disabled. *)
Theorem events_change_only_the_page (events : list Event) (sc : Screen) :
  pagination (dashboard (run events sc)) =
  with_page (page (pagination (dashboard (run events sc)))) (pagination (dashboard sc)).
Proof.
  unfold run. revert sc. induction events as [|ev events IH]; intros sc.
  - cbn. now destruct (pagination (dashboard sc)).
  - cbn [fold_left]. etransitivity; [apply IH|].
    generalize (page (pagination (dashboard
      (fold_left (fun sc0 ev0 => dispatch ev0 sc0) events (dispatch ev sc))))).
    intros n. now rewrite (dispatch_keeps_envelope ev sc).
Qed.

(** X13. A click on a page button either changes nothing or lands on the
    number of the button, which is a page between 1 and [pages]. *)
Theorem page_click_lands_on_a_page (pageNum : Z) (sc : Screen) :
  dispatch (PageClicked pageNum) sc = sc \/
  (page (pagination (dashboard (dispatch (PageClicked pageNum) sc))) = pageNum /\
   1 <= pageNum <= pages (pagination (dashboard sc))).
Proof.
  destruct sc as [d lv]. unfold dispatch, onDashboard. cbn [dashboard localValue].
  unfold Pagination.Pagination.
  destruct (pages (pagination d) <=? 1); [now left|]. cbn [page_buttons].
  destruct (existsb _ _) eqn:Hshown; [|now left]. right. split; [reflexivity|].
  apply existsb_exists in Hshown as (e & He & Hnum).
  destruct e as [n|]; [|discriminate]. apply Z.eqb_eq in Hnum. subst n.
  apply (PageButtonsFacts.pageNumbers_bounds (pagination d)).
  unfold PageButtons.pageNumbers. apply in_flat_map.
  exists (PageNum pageNum). split; [exact He|now left].
Qed.

(** X14. The search bar's events leave the facet selections as they are,
    and the sidebar's events leave the search text and the search box as
    they are. *)
Theorem search_and_filters_independent (ev : Event) (sc : Screen) :
  (isSearchEvent ev = true ->
     filters (dashboard (dispatch ev sc)) = filters (dashboard sc)) /\
  (isFilterEvent ev = true ->
     searchQuery (dashboard (dispatch ev sc)) = searchQuery (dashboard sc) /\
     localValue (dispatch ev sc) = localValue sc).
Proof.
  destruct sc as [d lv].
  unfold dispatch, searchBar, onDashboard, SearchBar.handleKeyDown.
  cbn [dashboard localValue].
  split.
  - destruct ev; cbn [isSearchEvent]; try discriminate; intros _;
      DashboardFacts.split_controls; reflexivity.
  - destruct ev; cbn [isFilterEvent]; try discriminate; intros _;
      DashboardFacts.split_controls; cbn;
      rewrite ?syncLocalValue_unchanged; now split.
Qed.

Lemma search_and_filters_independent_witness :
  (isSearchEvent SearchSubmitted = true /\
   filters (dashboard (dispatch SearchSubmitted typed_on_page_three))
     = filters (dashboard typed_on_page_three)) /\
  (isFilterEvent (FilterToggled Languages "ar" true) = true /\
   searchQuery (dashboard (dispatch (FilterToggled Languages "ar" true)
                             typed_on_page_three)) = "quran").
Proof.
  assert (H1 : isSearchEvent SearchSubmitted = true) by reflexivity.
  assert (H2 : isFilterEvent (FilterToggled Languages "ar" true) = true) by reflexivity.
  split.
  - split; [exact H1|].
    exact (proj1 (search_and_filters_independent SearchSubmitted typed_on_page_three) H1).
  - split; [exact H2|].
    exact (proj1 (proj2 (search_and_filters_independent
                           (FilterToggled Languages "ar" true) typed_on_page_three) H2)).
Defined.

End DashboardRunsFacts.


(** ** Further properties of auth0-integrated-provider.tsx *)

Module ReconcilerFacts.
Import Auth Reload AuthScenarios AuthFacts.

(** *** [String.prototype.includes] *)

Lemma includes_unfold pathname part :
  includes pathname part =
  if String.prefix part pathname then true
  else match pathname with
       | EmptyString => false
       | String _ rest => includes rest part
       end.
Proof. now destruct pathname. Qed.

Lemma prefix_trans part' part pathname :
  String.prefix part' part = true -> String.prefix part pathname = true ->
  String.prefix part' pathname = true.
Proof.
  revert part part'. induction pathname as [|c pathname IH]; intros part part'.
  - destruct part; [|discriminate]. now destruct part'.
  - destruct part as [|d part]; [now destruct part'|].
    destruct part' as [|d' part']; [reflexivity|]. simpl.
    destruct (Ascii.ascii_dec d' d) as [->|]; [|discriminate].
    destruct (Ascii.ascii_dec d c) as [->|]; [|discriminate]. apply IH.
Qed.

(** A path that contains [part] contains every prefix of [part]. *)
Lemma includes_weaken pathname part part' :
  String.prefix part' part = true ->
  includes pathname part = true -> includes pathname part' = true.
Proof.
  intros Hpre. induction pathname as [|c pathname IH].
  - rewrite (includes_unfold "" part), (includes_unfold "" part').
    destruct (String.prefix part "") eqn:Hp; [|discriminate].
    intros _. now rewrite (prefix_trans _ _ _ Hpre Hp).
  - rewrite (includes_unfold (String c pathname) part),
            (includes_unfold (String c pathname) part').
    destruct (String.prefix part (String c pathname)) eqn:Hp.
    + intros _. now rewrite (prefix_trans _ _ _ Hpre Hp).
    + intros Hrest. rewrite (IH Hrest).
      now destruct (String.prefix part' (String c pathname)).
Qed.

Lemma includes_after before pathname part :
  includes pathname part = true -> includes (before +:+ pathname) part = true.
Proof.
  intros Hin. induction before as [|c before IH]; [exact Hin|].
  change (String c before +:+ pathname) with (String c (before +:+ pathname)).
  rewrite includes_unfold.
  destruct (String.prefix part (String c (before +:+ pathname)));
    [reflexivity|exact IH].
Qed.

(** *** The route guard *)

Lemma guard_none_on_callback (locale : string) (a : Auth0State) (pathname : string)
    (s : State) :
  includes pathname "/auth/callback" = true -> guardRedirect locale a pathname s = None.
Proof.
  intros Hcb. unfold guardRedirect. rewrite Hcb.
  now destruct (isLoading s || auth0IsLoading a).
Qed.

(** X15. For a settled provider that reports nobody authenticated, the
    guard sends to the login page from every location that is neither an
    auth page nor the home page, and redirects nowhere from the others. *)
Theorem guard_sends_visitors_to_login (locale : string) (a : Auth0State)
    (pathname : string) (s : State) :
  isLoading s = false -> auth0IsLoading a = false -> auth0IsAuthenticated a = false ->
  guardRedirect locale a pathname s =
    if includes pathname "/auth/"
       || String.eqb pathname ("/" +:+ locale)
       || String.eqb pathname ("/" +:+ locale +:+ "/")
    then None
    else Some ("/" +:+ locale +:+ "/auth/login").
Proof.
  intros Hs Ha Hauth. unfold guardRedirect. rewrite Hs, Ha, Hauth. cbn [orb andb negb].
  destruct (includes pathname "/auth/callback") eqn:Hcb.
  - now rewrite (includes_weaken pathname "/auth/callback" "/auth/" eq_refl Hcb).
  - destruct (includes pathname "/auth/"); [reflexivity|]. cbn [negb andb orb].
    now destruct (String.eqb pathname ("/" +:+ locale)),
                 (String.eqb pathname ("/" +:+ locale +:+ "/")).
Qed.

Lemma guard_sends_visitors_to_login_witness :
  (isLoading visitor = false /\ auth0IsLoading signed_out = false /\
   auth0IsAuthenticated signed_out = false) /\
  guardRedirect "ar" signed_out "/ar/dashboard" visitor = Some "/ar/auth/login" /\
  guardRedirect "ar" signed_out "/ar" visitor = None.
Proof.
  split; [repeat split|]. split.
  - exact (guard_sends_visitors_to_login "ar" signed_out "/ar/dashboard" visitor
             eq_refl eq_refl eq_refl).
  - exact (guard_sends_visitors_to_login "ar" signed_out "/ar" visitor
             eq_refl eq_refl eq_refl).
Defined.

(** X16. In both locales of the site the guard never redirects twice in
    a row: at the location it redirects to, and in the same state, it
    redirects nowhere. *)
Theorem guard_redirect_is_final (locale : string) (a : Auth0State)
    (pathname target : string) (s : State) :
  locale = "ar" \/ locale = "en" ->
  guardRedirect locale a pathname s = Some target ->
  guardRedirect locale a target s = None.
Proof.
  intros Hlocale. unfold guardRedirect.
  destruct (isLoading s), (auth0IsLoading a); cbn [orb]; try discriminate.
  destruct (includes pathname "/auth/callback"); [discriminate|].
  destruct (auth0IsAuthenticated a), (hasUser s), (requiresProfileCompletion s);
    cbn [andb negb];
    destruct (includes pathname "/auth/complete-profile"),
             (includes pathname "/auth/"),
             (String.eqb pathname ("/" +:+ locale)),
             (String.eqb pathname ("/" +:+ locale +:+ "/"));
    cbn [andb negb]; try discriminate;
    intros [= <-]; destruct Hlocale as [-> | ->]; reflexivity.
Qed.

Lemma guard_redirect_is_final_witness :
  ("en" = "ar" \/ "en" = "en") /\
  guardRedirect "en" signed_in "/en/dashboard" fresh_session
    = Some "/en/auth/complete-profile" /\
  guardRedirect "en" signed_in "/en/auth/complete-profile" fresh_session = None.
Proof.
  assert (H1 : "en" = "ar" \/ "en" = "en") by (now right).
  assert (H2 : guardRedirect "en" signed_in "/en/dashboard" fresh_session
               = Some "/en/auth/complete-profile") by reflexivity.
  split; [exact H1|]. split; [exact H2|].
  exact (guard_redirect_is_final "en" signed_in "/en/dashboard"
           "/en/auth/complete-profile" fresh_session H1 H2).
Defined.

(** *** The sync effect and the mount effect *)

Lemma syncUser_while_loading a ui s :
  auth0IsLoading a = true -> syncUser a ui s = s.
Proof. intros Hload. unfold syncUser. now rewrite Hload. Qed.

Lemma syncUser_settled_in a au ui s :
  auth0IsLoading a = false -> auth0IsAuthenticated a = true -> auth0User a = Some au ->
  syncUser a ui s =
  {| user := Some (syncedUser au ui (persistedCompleted s));
     isLoading := false;
     requiresProfileCompletion := negb (persistedCompleted s);
     localStorage :=
       <["itqan_user" := JsonOf (syncedUser au ui (persistedCompleted s))]>
         (localStorage s);
     effects := effects s |}.
Proof.
  intros Hload Hauth Huser. unfold syncUser. rewrite Hload, Hauth, Huser.
  unfold persistedCompleted, syncedUser.
  change (getItem "itqan_profile_completed" (setIsLoading true s))
    with (getItem "itqan_profile_completed" s).
  now destruct (is_one (getItem "itqan_profile_completed" s)).
Qed.

Lemma syncUser_settled_out a ui s :
  auth0IsLoading a = false ->
  auth0IsAuthenticated a = false \/ auth0User a = None ->
  syncUser a ui s =
  {| user := None; isLoading := false; requiresProfileCompletion := false;
     localStorage := delete "itqan_profile_completed"
                       (delete "itqan_user" (localStorage s));
     effects := effects s |}.
Proof.
  intros Hload Hout. unfold syncUser. rewrite Hload.
  destruct Hout as [-> | ->]; [reflexivity|].
  now destruct (auth0IsAuthenticated a).
Qed.

(** X17. Running the sync effect again against the same provider report
    and the same lookup result changes nothing: a second run leaves the
    state of the first. *)
Theorem syncUser_idempotent (a : Auth0State) (ui : UserinfoOutcome) (s : State) :
  syncUser a ui (syncUser a ui s) = syncUser a ui s.
Proof.
  destruct (auth0IsLoading a) eqn:Hload.
  - now rewrite !syncUser_while_loading.
  - destruct (auth0IsAuthenticated a) eqn:Hauth, (auth0User a) as [au|] eqn:Huser.
    + rewrite !(syncUser_settled_in a au ui) by assumption.
      unfold persistedCompleted, getItem. cbn [localStorage effects].
      rewrite lookup_insert_ne by discriminate. now rewrite insert_insert_eq.
    + rewrite !(syncUser_settled_out a ui) by (assumption || now right).
      cbn [localStorage effects]. f_equal. apply map_eq. intros k.
      rewrite !lookup_delete. now repeat case_decide.
    + rewrite !(syncUser_settled_out a ui) by (assumption || now left).
      cbn [localStorage effects]. f_equal. apply map_eq. intros k.
      rewrite !lookup_delete. now repeat case_decide.
    + rewrite !(syncUser_settled_out a ui) by (assumption || now left).
      cbn [localStorage effects]. f_equal. apply map_eq. intros k.
      rewrite !lookup_delete. now repeat case_decide.
Qed.

Lemma remount_stored_user s u :
  getItem "itqan_user" s = Some (JsonOf u) ->
  user (remount s) = Some u /\
  requiresProfileCompletion (remount s)
    = negb (persistedCompleted s) && negb (profileCompleted u).
Proof.
  unfold remount, loadFromStorage, persistedCompleted, getItem. cbn.
  now intros ->.
Qed.

Lemma remount_no_user s :
  getItem "itqan_user" s = None ->
  user (remount s) = None /\ requiresProfileCompletion (remount s) = false.
Proof.
  unfold remount, loadFromStorage, getItem. cbn. now intros ->.
Qed.

(** X18. What the sync effect (against a settled provider) or a successful
    completeProfile leaves in [localStorage] brings back, after a reload of
    the page, the same User and the same [requiresProfileCompletion]. *)
Theorem reload_restores_session (a : Auth0State) (s : State) :
  (forall ui, auth0IsLoading a = false ->
     user (remount (syncUser a ui s)) = user (syncUser a ui s) /\
     requiresProfileCompletion (remount (syncUser a ui s))
       = requiresProfileCompletion (syncUser a ui s)) /\
  (forall locale backendUser,
     let s' := fst (completeProfile locale a (SubmitOk (inr backendUser)) s) in
     user (remount s') = user s' /\
     requiresProfileCompletion (remount s') = requiresProfileCompletion s').
Proof.
  split.
  - intros ui Hload.
    destruct (auth0IsAuthenticated a) eqn:Hauth, (auth0User a) as [au|] eqn:Huser.
    + destruct (syncUser_signed_in a au ui s Hload Hauth Huser)
        as (u & Hu & Hstored & Hflag & Hdone & Hreq & _).
      destruct (remount_stored_user _ u Hstored) as [Hu' Hreq'].
      rewrite Hu, Hu', Hreq, Hreq'. split; [reflexivity|].
      unfold persistedCompleted in *. rewrite Hflag, Hdone. apply andb_diag.
    + destruct (syncUser_signed_out a ui s Hload (or_intror Huser))
        as (Hu & Hreq & Hstored & _).
      destruct (remount_no_user _ Hstored) as [Hu' Hreq'].
      now rewrite Hu, Hu', Hreq, Hreq'.
    + destruct (syncUser_signed_out a ui s Hload (or_introl Hauth))
        as (Hu & Hreq & Hstored & _).
      destruct (remount_no_user _ Hstored) as [Hu' Hreq'].
      now rewrite Hu, Hu', Hreq, Hreq'.
    + destruct (syncUser_signed_out a ui s Hload (or_introl Hauth))
        as (Hu & Hreq & Hstored & _).
      destruct (remount_no_user _ Hstored) as [Hu' Hreq'].
      now rewrite Hu, Hu', Hreq, Hreq'.
  - intros locale backendUser s'.
    assert (Hstored : exists u, user s' = Some u /\
                        getItem "itqan_user" s' = Some (JsonOf u) /\
                        profileCompleted u = true).
    { eexists. split; [reflexivity|]. split; [|reflexivity].
      unfold getItem. cbn. rewrite lookup_insert_ne by discriminate.
      apply lookup_insert_eq. }
    destruct Hstored as (u & Hu & Hstored & Hdone).
    destruct (remount_stored_user _ u Hstored) as [Hu' Hreq'].
    rewrite Hu, Hu', Hreq', Hdone. split; [reflexivity|].
    cbn. apply andb_false_r.
Qed.

Lemma reload_restores_session_witness :
  auth0IsLoading signed_in = false /\
  user (remount fresh_session) = user fresh_session /\
  requiresProfileCompletion (remount fresh_session) = true.
Proof.
  assert (H : auth0IsLoading signed_in = false) by reflexivity.
  split; [exact H|].
  exact (proj1 (reload_restores_session signed_in (initialState ∅)) UiFetchRejected H).
Defined.

(** X19. Once completeProfile has succeeded, a later run of the sync
    effect for an authenticated provider user finds the persisted flag:
    the User it builds has [profileCompleted] true and
    [requiresProfileCompletion] stays false. *)
Theorem completion_survives_sync (locale : string) (a0 a : Auth0State)
    (au : Auth0User) (backendUser : BackendUser) (ui : UserinfoOutcome) (s : State) :
  auth0IsLoading a = false -> auth0IsAuthenticated a = true -> auth0User a = Some au ->
  let s' := syncUser a ui (fst (completeProfile locale a0 (SubmitOk (inr backendUser)) s)) in
  requiresProfileCompletion s' = false /\
  persistedCompleted s' = true /\
  exists u, user s' = Some u /\ profileCompleted u = true /\ id u = sub au.
Proof.
  intros Hload Hauth Huser s'. subst s'.
  unfold syncUser. rewrite Hload, Hauth, Huser.
  unfold persistedCompleted, persistUserState, setItem, onStorage, getItem. cbn.
  rewrite lookup_insert_eq. cbn.
  split; [reflexivity|]. split.
  - rewrite lookup_insert_ne by discriminate. now rewrite lookup_insert_eq.
  - eexists. now repeat split.
Qed.

Lemma completion_survives_sync_witness :
  (auth0IsLoading signed_in = false /\ auth0IsAuthenticated signed_in = true /\
   auth0User signed_in = Some amina) /\
  requiresProfileCompletion (syncUser signed_in UiFetchRejected completed_session) = false.
Proof.
  split; [repeat split|].
  exact (proj1 (completion_survives_sync "en" signed_in signed_in amina amina_backend
                  UiFetchRejected fresh_session eq_refl eq_refl eq_refl)).
Defined.

(** X20. A non-empty email claim of the provider wins: the state after the
    sync effect does not depend on what the [/userinfo] lookup would meet,
    and the User's email is the claim. Without the claim, the email of an ok
    [/userinfo] answer is taken. *)
Theorem email_claim_comes_first (a : Auth0State) (au : Auth0User) (s : State) :
  auth0IsLoading a = false -> auth0IsAuthenticated a = true -> auth0User a = Some au ->
  (forall e, nonempty (email_claim au) = Some e ->
     (forall ui ui', syncUser a ui s = syncUser a ui' s) /\
     (forall ui, email <$> user (syncUser a ui s) = Some e)) /\
  (forall e, nonempty (email_claim au) = None ->
     email <$> user (syncUser a (UiResponded true (Some (Some e))) s) = Some e).
Proof.
  intros Hload Hauth Huser. split.
  - intros e Hclaim.
    assert (He : e <> "").
    { unfold nonempty in Hclaim. destruct (email_claim au) as [c|]; [|discriminate].
      destruct (String.eqb_spec c ""); [discriminate|]. congruence. }
    split.
    + intros ui ui'. unfold syncUser. now rewrite Hload, Hauth, Huser, Hclaim.
    + intros ui. destruct (syncUser_signed_in a au ui s Hload Hauth Huser)
        as (u & Hu & _ & _ & _ & _ & Hemail).
      rewrite Hu. cbn. f_equal. rewrite Hemail, Hclaim.
      unfold or_default, nonempty. now destruct (String.eqb_spec e "").
  - intros e Hclaim.
    destruct (syncUser_signed_in a au (UiResponded true (Some (Some e))) s
                Hload Hauth Huser) as (u & Hu & _ & _ & _ & _ & Hemail).
    rewrite Hu. cbn. f_equal. rewrite Hemail, Hclaim. cbn.
    unfold or_default, nonempty. now destruct (String.eqb_spec e "").
Qed.

Lemma email_claim_comes_first_witness :
  (auth0IsLoading signed_in = false /\ auth0IsAuthenticated signed_in = true /\
   auth0User signed_in = Some amina /\ nonempty (email_claim amina) = None) /\
  email <$> user (syncUser signed_in (UiResponded true (Some (Some "amina@example.org")))
                    (initialState ∅)) = Some "amina@example.org".
Proof.
  split; [repeat split|].
  exact (proj2 (email_claim_comes_first signed_in amina (initialState ∅)
                  eq_refl eq_refl eq_refl) "amina@example.org" eq_refl).
Defined.

(** X21. Whatever the state before (a session, a user handed over by
    [updateUser], a logout), a run of the sync effect against a settled
    provider without an authenticated user leaves no User, the flag down,
    and neither key in [localStorage]. *)
Theorem sync_without_provider_user_forgets (a : Auth0State) (ui : UserinfoOutcome)
    (s : State) :
  auth0IsLoading a = false ->
  auth0IsAuthenticated a = false \/ auth0User a = None ->
  user (syncUser a ui s) = None /\
  requiresProfileCompletion (syncUser a ui s) = false /\
  getItem "itqan_user" (syncUser a ui s) = None /\
  getItem "itqan_profile_completed" (syncUser a ui s) = None.
Proof. exact (syncUser_signed_out a ui s). Qed.

Lemma sync_without_provider_user_forgets_witness :
  (auth0IsLoading signed_out = false /\
   (auth0IsAuthenticated signed_out = false \/ auth0User signed_out = None)) /\
  user (syncUser signed_out UiFetchRejected (updateUser draft_user completed_session))
    = None /\
  getItem "itqan_profile_completed"
    (syncUser signed_out UiFetchRejected (updateUser draft_user completed_session)) = None.
Proof.
  assert (H1 : auth0IsLoading signed_out = false) by reflexivity.
  assert (H2 : auth0IsAuthenticated signed_out = false \/ auth0User signed_out = None)
    by (now left).
  split; [now split|].
  destruct (sync_without_provider_user_forgets signed_out UiFetchRejected
              (updateUser draft_user completed_session) H1 H2) as (Hu & _ & _ & Hflag).
  now split.
Defined.

(** X22. The mount effect only reads [localStorage]: it never writes it
    and leaves the calls made and the loading flag alone. With nothing
    stored under 'itqan_user', with the empty text there, or with a text
    that cannot be JSON (such as 'undefined'), so that [JSON.parse] throws
    into the effect's [catch], it leaves the whole state as it is. *)
Theorem load_reads_only (s : State) :
  localStorage (loadFromStorage s) = localStorage s /\
  effects (loadFromStorage s) = effects s /\
  isLoading (loadFromStorage s) = isLoading s /\
  (getItem "itqan_user" s = None -> loadFromStorage s = s) /\
  (getItem "itqan_user" s = Some (Text "") -> loadFromStorage s = s) /\
  (forall t, getItem "itqan_user" s = Some (Text t) ->
             StoredText.cannotBeJSON t = true -> loadFromStorage s = s).
Proof.
  unfold loadFromStorage.
  destruct (getItem "itqan_user" s) as [[u|t]|] eqn:Hstored; cbn.
  - repeat split; discriminate.
  - destruct (negb (String.eqb t "")); repeat split; reflexivity.
  - repeat split; reflexivity.
Qed.

Lemma load_reads_only_witness :
  getItem "itqan_user" (initialState {[ "itqan_user" := Text "undefined" ]})
    = Some (Text "undefined") /\
  StoredText.cannotBeJSON "undefined" = true /\
  loadFromStorage (initialState {[ "itqan_user" := Text "undefined" ]})
    = initialState {[ "itqan_user" := Text "undefined" ]}.
Proof.
  assert (H : getItem "itqan_user" (initialState {[ "itqan_user" := Text "undefined" ]})
              = Some (Text "undefined")) by reflexivity.
  assert (Hno : StoredText.cannotBeJSON "undefined" = true) by reflexivity.
  split; [exact H|]. split; [exact Hno|].
  exact (proj2 (proj2 (proj2 (proj2 (proj2 (load_reads_only _))))) "undefined" H Hno).
Defined.

Example texts_that_cannot_be_JSON :
  StoredText.cannotBeJSON "" = true /\
  StoredText.cannotBeJSON "  " = true /\
  StoredText.cannotBeJSON "<html>" = true /\
  StoredText.cannotBeJSON "{}" = false /\
  StoredText.cannotBeJSON " null" = false.
Proof. repeat split. Qed.

End ReconcilerFacts.


(** ** Properties of the provider's view, the header and the login flows *)

Module ProviderViewFacts.
Import Auth ProviderView Header AuthScenarios.

(** X23. A header drawn under the provider never shows its loading
    placeholder and never a disabled login button: the provider hands the
    context down only when nothing is loading. It shows the user block, with
    the logout button, exactly for a User whom the provider reports
    authenticated. *)
Theorem header_under_provider (locale : string) (a : Auth0State) (s : State)
    (v : AuthContextValue) :
  render locale a s = Children v ->
  authArea v <> Placeholder /\
  authArea v <> LoginButton true /\
  (forall u, authArea v = UserBlock u <->
             auth0IsAuthenticated a = true /\ user s = Some u).
Proof.
  unfold render. destruct (isLoading s || auth0IsLoading a) eqn:Hload; [discriminate|].
  intros [= <-]. unfold authArea, contextValue. cbn. rewrite Hload.
  destruct (auth0IsAuthenticated a), (user s) as [u'|]; repeat split;
    try discriminate; try congruence; intros [? ?]; congruence.
Qed.

Lemma header_under_provider_witness :
  render "en" signed_in fresh_session = Children (contextValue signed_in fresh_session) /\
  authArea (contextValue signed_in fresh_session) <> Placeholder /\
  authArea (contextValue signed_in fresh_session) <> LoginButton true.
Proof.
  assert (H : render "en" signed_in fresh_session
              = Children (contextValue signed_in fresh_session)) by reflexivity.
  split; [exact H|].
  destruct (header_under_provider "en" signed_in fresh_session _ H) as (H1 & H2 & _).
  now split.
Defined.

(** X24. Both login flows come back to a location the guard leaves alone.
    The redirect URI of [loginWithRedirect] (also when started by
    [handleSocialSignup], which asks for the signup screen on the chosen
    connection) and the callback URL of the Auth0 provider wrapper are a base
    followed by a path on which the route guard redirects nowhere, whatever
    the provider and the reconciler report. *)
Theorem login_flows_return_to_spared_location (locale guardLocale APP_URL : string)
    (AUDIENCE : option string) (options : option LoginOptions) (chosen : string)
    (window : option Location) (a : Auth0State) (s : State) :
  (exists path,
     redirect_uri (loginWithRedirect locale APP_URL AUDIENCE options) = APP_URL +:+ path /\
     guardRedirect guardLocale a path s = None) /\
  (redirect_uri (handleSocialSignup locale APP_URL AUDIENCE chosen)
     = redirect_uri (loginWithRedirect locale APP_URL AUDIENCE options) /\
   connection (handleSocialSignup locale APP_URL AUDIENCE chosen) = Some chosen /\
   screen_hint (handleSocialSignup locale APP_URL AUDIENCE chosen) = Some hint_signup) /\
  (getCallbackUrl window APP_URL = callbackBase window APP_URL +:+ callbackPath window /\
   (callbackPath window = "/ar/auth/callback" \/
    callbackPath window = "/en/auth/callback") /\
   guardRedirect guardLocale a (callbackPath window) s = None).
Proof.
  split; [|split].
  - exists ("/" +:+ locale +:+ "/auth/callback"). split; [reflexivity|].
    apply ReconcilerFacts.guard_none_on_callback.
    do 2 apply ReconcilerFacts.includes_after. reflexivity.
  - repeat split.
  - split; [reflexivity|].
    assert (Hpath : callbackPath window = "/ar/auth/callback" \/
                    callbackPath window = "/en/auth/callback").
    { unfold callbackPath. destruct window as [w|]; [|now right].
      destruct (String.prefix "/ar" (pathname w)); [now left|now right]. }
    split; [exact Hpath|].
    apply ReconcilerFacts.guard_none_on_callback.
    destruct Hpath as [-> | ->]; reflexivity.
Qed.

End ProviderViewFacts.

(** ** Further properties of the forms *)

Module FormInputFacts.
Import Forms FormInput FormScenarios SubmitScenarios.

(** X25. Typing in a field stores the value under that field and takes
    away the error drawn under it; every other field keeps its value and its
    error, and the submit error and the loading flag stay as they are. *)
Theorem typing_clears_own_error (fieldName value : string) (st : FormState) :
  fieldValue (formData (handleInputChange fieldName value st)) fieldName = value /\
  shownError (handleInputChange fieldName value st) fieldName = None /\
  (forall other, other <> fieldName ->
     fieldValue (formData (handleInputChange fieldName value st)) other
       = fieldValue (formData st) other /\
     shownError (handleInputChange fieldName value st) other = shownError st other) /\
  submitError (handleInputChange fieldName value st) = submitError st /\
  isLoading (handleInputChange fieldName value st) = isLoading st.
Proof.
  unfold handleInputChange, shownError, fieldValue.
  destruct (Auth.nonempty (fieldErrors st !! fieldName)) eqn:Hshown; cbn.
  - rewrite !lookup_insert_eq. cbn. repeat split; try reflexivity;
      now rewrite lookup_insert_ne by congruence.
  - rewrite lookup_insert_eq, Hshown. cbn. repeat split; try reflexivity.
    now rewrite lookup_insert_ne by congruence.
Qed.

Lemma typing_clears_own_error_witness :
  "password" <> "email" /\
  fieldValue (formData (handleInputChange "email" "a@b.c" no_email)) "password" = "secret".
Proof.
  assert (H : "password" <> "email") by discriminate.
  split; [exact H|].
  destruct (typing_clears_own_error "email" "a@b.c" no_email) as (_ & _ & Hother & _).
  exact (proj1 (Hother "password" H)).
Defined.

Lemma forEach_lookup (errs : list ValidationError) (acc : gmap string string)
    (name : string) :
  fold_left (fun fieldErrors error => <[field error := message error]> fieldErrors)
    errs acc !! name =
  match find (fun e => String.eqb (field e) name) (rev errs) with
  | Some e => Some (message e)
  | None => acc !! name
  end.
Proof.
  induction errs as [|x errs IH] using rev_ind; [reflexivity|].
  rewrite fold_left_app, rev_app_distr. cbn [fold_left rev app find].
  destruct (String.eqb_spec (field x) name) as [<-|Hne].
  - apply lookup_insert_eq.
  - rewrite lookup_insert_ne by exact Hne. apply IH.
Qed.

(** X26. After the [forEach] of a submit handler, the message stored for a
    field is the message of the last error the validator reported for it,
    and a field without errors has no entry. *)
Theorem last_error_of_a_field_is_shown (errs : list ValidationError) (name : string) :
  collectErrors errs !! name =
  message <$> find (fun e => String.eqb (field e) name) (rev errs).
Proof.
  unfold collectErrors. rewrite forEach_lookup.
  now destruct (find _ (rev errs)).
Qed.

(** X27. Whatever validator is plugged in, the login form calls [login] of
    its context exactly when the form is valid and the answer of [loginUser]
    has [success], a user and a non-empty token; it calls [loginUser] once
    for a valid form and not at all otherwise; and a valid submit ends with
    the loading flag down. *)
Theorem login_only_on_full_success
    (validateLoginForm : gmap string string -> Dictionary -> ValidationResult)
    (dict : Dictionary) (answer : option AuthResponse) (st : FormState)
    (u : AccountUser) (t : string) :
  (In (ContextLogin u t) (snd (handleEmailLogin validateLoginForm dict answer st)) <->
     isValid (validateLoginForm (formData st) dict) = true /\
     exists r, answer = Some r /\ success r = true /\ response_user r = Some u /\
               Auth.nonempty (token r) = Some t) /\
  List.filter isNetworkCall (snd (handleEmailLogin validateLoginForm dict answer st)) =
    (if isValid (validateLoginForm (formData st) dict)
     then [LoginUser (fieldValue (formData st) "email")
                     (fieldValue (formData st) "password")]
     else []) /\
  isLoading (fst (handleEmailLogin validateLoginForm dict answer st)) =
    (if isValid (validateLoginForm (formData st) dict) then false else isLoading st).
Proof.
  unfold handleEmailLogin. cbn [formData setSubmitError].
  destruct (isValid (validateLoginForm (formData st) dict)); cbn [negb].
  - destruct answer as [r|].
    + destruct (success r) eqn:Hs, (response_user r) as [u'|] eqn:Hu,
               (Auth.nonempty (token r)) as [t'|] eqn:Ht;
        cbn [fst snd List.filter isNetworkCall isLoading setIsLoading];
        (split; [|split; reflexivity]);
        (split;
         [ intros Hin; cbn [In] in Hin;
           repeat match goal with
                  | H : _ \/ _ |- _ => destruct H
                  | H : False |- _ => contradiction
                  end; try discriminate;
           try (match goal with
                | H : ContextLogin _ _ = ContextLogin _ _ |- _ => injection H as <- <-
                end;
                split; [reflexivity|]; exists r; now repeat split)
         | intros (_ & r' & Hr & Hs' & Hu' & Ht'); injection Hr as <-;
           rewrite ?Hs, ?Hu, ?Ht in *; try discriminate;
           injection Hu' as <-; injection Ht' as <-; right; left; reflexivity ]).
    + cbn [fst snd List.filter isNetworkCall isLoading setIsLoading].
      split; [|split; reflexivity]. split.
      * intros [H|[]]. discriminate.
      * intros (_ & r & H & _). discriminate.
  - cbn [fst snd List.filter isLoading setErrors].
    split; [|split; reflexivity]. split; [contradiction|].
    intros (H & _). discriminate.
Qed.

(** X28. Whatever validator is plugged in, a User that the signup form
    hands to [updateUser] is an email user with [profileCompleted] true, so
    the reconciler's flag is down after the hand-over; and the form hands a
    User over only together with the navigation to the dashboard. *)
Theorem signup_hands_over_completed_user
    (validateSignupForm : gmap string string -> Dictionary -> ValidationResult)
    (dict : Dictionary) (locale : string) (answer : option AuthResponse)
    (st : FormState) (u : Auth.User) :
  In (ContextUpdateUser u) (snd (handleSubmit validateSignupForm dict locale answer st)) ->
  Auth.profileCompleted u = true /\
  Auth.provider u = "email" /\
  (forall s, Auth.requiresProfileCompletion (Auth.updateUser u s) = false) /\
  In (LocationAssign ("/" +:+ locale +:+ "/dashboard"))
     (snd (handleSubmit validateSignupForm dict locale answer st)).
Proof.
  unfold handleSubmit. cbn [formData setSubmitError].
  destruct (isValid (validateSignupForm (formData st) dict)); cbn [negb];
    [|contradiction].
  destruct answer as [r|]; [|intros [H|[]]; discriminate].
  destruct (success r), (response_user r) as [u'|], (Auth.nonempty (token r)) as [t'|];
    cbn; try (intros [H|[]]; discriminate).
  intros [H|[H|[H|[]]]]; try discriminate. injection H as <-.
  repeat split. right. right. now left.
Qed.


Lemma signup_hands_over_completed_user_witness :
  let u := {| Auth.id := "9"; Auth.email := "amina@example.org";
              Auth.firstName := "Amina"; Auth.lastName := "Said";
              Auth.provider := "email"; Auth.profileCompleted := true;
              Auth.auth0Id := Some "9" |} in
  In (ContextUpdateUser u)
     (snd (handleSubmit (validateRequired loginFields) english "en"
             (Some signed_up) filled_in)) /\
  Auth.requiresProfileCompletion (Auth.updateUser u AuthScenarios.visitor) = false.
Proof.
  cbn zeta.
  assert (H : In (ContextUpdateUser
                    {| Auth.id := "9"; Auth.email := "amina@example.org";
                       Auth.firstName := "Amina"; Auth.lastName := "Said";
                       Auth.provider := "email"; Auth.profileCompleted := true;
                       Auth.auth0Id := Some "9" |})
                 (snd (handleSubmit (validateRequired loginFields) english "en"
                         (Some signed_up) filled_in)))
    by (right; left; reflexivity).
  split; [exact H|].
  destruct (signup_hands_over_completed_user _ _ _ _ _ _ H) as (_ & _ & Hflag & _).
  exact (Hflag AuthScenarios.visitor).
Defined.

(** X29. The profile-completion form calls [completeProfile] only for a
    valid form and leaves the reconciler untouched otherwise. When
    [completeProfile] rejects, the form shows the dictionary's network-error
    text, whatever error the backend named, and the reconciler's state is
    the one before; when it resolves, no submit error is shown and
    [requiresProfileCompletion] is false. A valid submit always ends with the
    loading flag down. *)
Theorem profile_submit_outcomes
    (validateSocialProfileForm : gmap string string -> Dictionary -> ValidationResult)
    (dict : Dictionary) (locale : string) (a : Auth.Auth0State)
    (out : Auth.SubmitOutcome) (st : FormState) (s : Auth.State) :
  let result := ProfileForm.handleSubmit validateSocialProfileForm dict locale a out st s in
  let valid := isValid (validateSocialProfileForm (ProfileForm.validatedData (formData st)) dict) in
  (valid = false -> snd (fst result) = s /\ snd result = false) /\
  (valid = true ->
     snd result = true /\
     isLoading (fst (fst result)) = false /\
     (snd (Auth.completeProfile locale a out s) = Auth.Resolved ->
        submitError (fst (fst result)) = "" /\
        Auth.requiresProfileCompletion (snd (fst result)) = false) /\
     (forall e, snd (Auth.completeProfile locale a out s) = Auth.Rejected e ->
        submitError (fst (fst result)) = networkError dict /\
        snd (fst result) = s)).
Proof.
  cbn zeta. unfold ProfileForm.handleSubmit. cbn [formData setSubmitError].
  destruct (isValid _); cbn [negb]; split; try discriminate; intros _.
  - destruct out as [e|e|[e|b]|ef]; cbn; repeat split; try discriminate; reflexivity.
  - now split.
Qed.

Lemma profile_submit_outcomes_witness :
  let out := Auth.SubmitNotOk (Some "phone number already used") in
  let result := ProfileForm.handleSubmit (validateRequired ProfileForm.validatedFields) english "en"
                  AuthScenarios.signed_in out profile_filled AuthScenarios.fresh_session in
  isValid (validateRequired ProfileForm.validatedFields (ProfileForm.validatedData (formData profile_filled))
             english) = true /\
  snd (Auth.completeProfile "en" AuthScenarios.signed_in out AuthScenarios.fresh_session)
    = Auth.Rejected (Auth.ErrorWith "phone number already used") /\
  submitError (fst (fst result)) = "Network error" /\
  snd (fst result) = AuthScenarios.fresh_session.
Proof.
  cbn zeta.
  assert (H1 : isValid (validateRequired ProfileForm.validatedFields
                          (ProfileForm.validatedData (formData profile_filled)) english) = true)
    by reflexivity.
  assert (H2 : snd (Auth.completeProfile "en" AuthScenarios.signed_in
                      (Auth.SubmitNotOk (Some "phone number already used"))
                      AuthScenarios.fresh_session)
               = Auth.Rejected (Auth.ErrorWith "phone number already used"))
    by reflexivity.
  split; [exact H1|]. split; [exact H2|].
  destruct (proj2 (profile_submit_outcomes (validateRequired ProfileForm.validatedFields) english "en"
                     AuthScenarios.signed_in
                     (Auth.SubmitNotOk (Some "phone number already used"))
                     profile_filled AuthScenarios.fresh_session) H1)
    as (_ & _ & _ & Hrej).
  exact (Hrej _ H2).
Defined.

End FormInputFacts.
